(** * modernglpp: a shallow embedding of the resource layer

    The development follows [modernglpp.h], [modernglpp.cc] and the
    specialisations of [example.cc].  The graphics device and the installed
    allocator are external collaborators: every call that crosses that
    boundary is recorded, in program order, in a trace, and whatever the
    collaborator answers is taken from an arbitrary deterministic function of
    the call history.  Objects live in a store indexed by address; an
    operation that would read through a pointer to no live object of the
    right type has no defined result ([None]). *)

From stdpp Require Import base option list gmap strings.
From Stdlib Require Import ZArith Lia.

Local Open Scope Z_scope.

(** ** Machine integers, pointers, floats *)

Definition ptr := Z.
Definition nullptr : ptr := 0.
Definition handle_t := Z.
Definition GLenum := Z.

(** A [float] is carried as its IEEE-754 binary32 bit pattern. *)
Definition float := Z.
Definition float_of_int_1 : float := 0x3F800000.

Definition to_u32 (z : Z) : Z := z mod 2 ^ 32.
Definition to_s32 (z : Z) : Z := (z + 2 ^ 31) mod 2 ^ 32 - 2 ^ 31.
Definition to_size_t (z : Z) : Z := z mod 2 ^ 64.

(** ** Constants of the device API header (glad/glad.h) *)

Definition GL_FALSE : Z := 0.
Definition GL_NO_ERROR : GLenum := 0.
Definition GL_INVALID_ENUM : GLenum := 0x0500.
Definition GL_INVALID_VALUE : GLenum := 0x0501.
Definition GL_INVALID_OPERATION : GLenum := 0x0502.
Definition GL_OUT_OF_MEMORY : GLenum := 0x0505.
Definition GL_FLOAT : GLenum := 0x1406.
Definition GL_UNSIGNED_BYTE : GLenum := 0x1401.
Definition GL_ARRAY_BUFFER : GLenum := 0x8892.
Definition GL_ELEMENT_ARRAY_BUFFER : GLenum := 0x8893.
Definition GL_UNIFORM_BUFFER : GLenum := 0x8A11.
Definition GL_SHADER_STORAGE_BUFFER : GLenum := 0x90D2.
Definition GL_POINTS : GLenum := 0x0000.
Definition GL_LINES : GLenum := 0x0001.
Definition GL_TRIANGLES : GLenum := 0x0004.
Definition GL_RED : GLenum := 0x1903.
Definition GL_RG : GLenum := 0x8227.
Definition GL_RGB : GLenum := 0x1907.
Definition GL_RGBA : GLenum := 0x1908.
Definition GL_BGR : GLenum := 0x80E0.
Definition GL_BGRA : GLenum := 0x80E1.
Definition GL_R8 : GLenum := 0x8229.
Definition GL_RG8 : GLenum := 0x822B.
Definition GL_RGB8 : GLenum := 0x8051.
Definition GL_RGBA8 : GLenum := 0x8058.
Definition GL_R32F : GLenum := 0x822E.
Definition GL_RG32F : GLenum := 0x8230.
Definition GL_RGB32F : GLenum := 0x8815.
Definition GL_RGBA32F : GLenum := 0x8814.
Definition GL_NEAREST : GLenum := 0x2600.
Definition GL_LINEAR : GLenum := 0x2601.
Definition GL_REPEAT : GLenum := 0x2901.
Definition GL_CLAMP_TO_BORDER : GLenum := 0x812D.
Definition GL_CLAMP_TO_EDGE : GLenum := 0x812F.
Definition GL_MIRRORED_REPEAT : GLenum := 0x8370.
Definition GL_MIRROR_CLAMP_TO_EDGE : GLenum := 0x8743.
Definition GL_DEPTH_BUFFER_BIT : Z := 0x00000100.
Definition GL_COLOR_BUFFER_BIT : Z := 0x00004000.
Definition GL_TEXTURE_2D : GLenum := 0x0DE1.
Definition GL_TEXTURE0 : Z := 0x84C0.
Definition GL_TEXTURE_MAG_FILTER : GLenum := 0x2800.
Definition GL_TEXTURE_MIN_FILTER : GLenum := 0x2801.
Definition GL_TEXTURE_WRAP_S : GLenum := 0x2802.
Definition GL_TEXTURE_WRAP_T : GLenum := 0x2803.
Definition GL_TEXTURE_WRAP_R : GLenum := 0x8072.
Definition GL_FRAGMENT_SHADER : GLenum := 0x8B30.
Definition GL_VERTEX_SHADER : GLenum := 0x8B31.
Definition GL_COMPILE_STATUS : GLenum := 0x8B81.
Definition GL_LINK_STATUS : GLenum := 0x8B82.
Definition GL_STATIC_DRAW : GLenum := 0x88E4.
Definition GL_DYNAMIC_DRAW : GLenum := 0x88E8.

(** ** Static types *)

(** Static types whose storage [fromObject] reinterprets.  The vector and
    matrix types are glm's: tightly packed columns of floats.  [T_bytes n]
    stands for any other object type, of [n] bytes. *)
Inductive CType :=
| T_float | T_int
| T_glm_vec2 | T_glm_vec3 | T_glm_vec4
| T_glm_mat3 | T_glm_mat4
| T_Sampler
| T_bytes (n : Z).

Definition sizeof (T : CType) : Z :=
  match T with
  | T_float => 4
  | T_int => 4
  | T_glm_vec2 => 2 * 4
  | T_glm_vec3 => 3 * 4
  | T_glm_vec4 => 4 * 4
  | T_glm_mat3 => 3 * (3 * 4)
  | T_glm_mat4 => 4 * (4 * 4)
  | T_Sampler => 16
  | T_bytes n => n
  end.

(** Object sizes on an LP64 target. *)
Definition sizeof_ptr : Z := 8.
Definition sizeof_Texture : Z := 8.
Definition sizeof_Program : Z := 4.
Definition sizeof_Buffer : Z := 24.
Definition sizeof_VertexArray : Z := 24.

(** ** View<T>: a non-owning (pointer, length) pair *)

Module View.
Record t := mk { first : ptr; len : Z }.

Definition default : t := mk nullptr 0.
Definition empty (v : t) : bool := len v =? 0.
Definition size (v : t) : Z := len v.
Definition data (v : t) : ptr := first v.

(** [View<const T>::fromObject(const Object& object)]: the reference is
    the address of the object, its static type gives [sizeof (Object)]. *)
Definition fromObject (Object : CType) (object : ptr) : t :=
  let elementCount := sizeof Object / sizeof T_float in
  mk object elementCount.
End View.

(** [MGL_GLSL (version, source)]. *)
Definition newline : string := String (Ascii.ascii_of_nat 10) EmptyString.

Definition MGL_GLSL (version source : string) : string :=
  ("#version " ++ version ++ newline ++ source ++ newline)%string.

(** A [StringView] is carried as the characters it views. *)
Definition StringView := string.
Definition StringView_size (s : StringView) : Z := Z.of_nat (String.length s).

(** ** Enumerations *)

Module BufferType.
Inductive t := Array | Element | Uniform | Shader.
End BufferType.

Module DataType.
Inductive t := Float | Byte.
End DataType.

Module DrawMode.
Inductive t := Triangles | Lines | Points.
End DrawMode.

(** The enumerators are those the switch of [enum_cast (TextureFormat)]
    names. *)
Module TextureFormat.
Inductive t :=
| RED | RG | RGB | RGBA | BGR | BGRA
| R8u | RG8u | RGB8u | RGBA8u
| R32f | RG32f | RGB32f | RGBA32f.

#[global] Instance eq_dec : EqDecision t.
Proof. solve_decision. Defined.
End TextureFormat.

Module TextureFilterMode.
Inductive t := Linear | Nearest.
End TextureFilterMode.

Module TextureWrapMode.
Inductive t :=
| ClampToEdge | ClampToBorder | MirroredRepeat | Repeat | MirrorClampToEdge.
End TextureWrapMode.

(** The overload set [enum_cast].  Each switch is exhaustive over its
    enumeration, so the trailing [return GL_INVALID_ENUM] is reached by no
    enumerator. *)
Class EnumCast (E : Type) := enum_cast : E -> GLenum.

#[global] Instance enum_cast_DataType : EnumCast DataType.t := fun type =>
  match type with
  | DataType.Float => GL_FLOAT
  | DataType.Byte => GL_UNSIGNED_BYTE
  end.

#[global] Instance enum_cast_BufferType : EnumCast BufferType.t := fun type =>
  match type with
  | BufferType.Array => GL_ARRAY_BUFFER
  | BufferType.Element => GL_ELEMENT_ARRAY_BUFFER
  | BufferType.Uniform => GL_UNIFORM_BUFFER
  | BufferType.Shader => GL_SHADER_STORAGE_BUFFER
  end.

#[global] Instance enum_cast_DrawMode : EnumCast DrawMode.t := fun type =>
  match type with
  | DrawMode.Triangles => GL_TRIANGLES
  | DrawMode.Lines => GL_LINES
  | DrawMode.Points => GL_POINTS
  end.

#[global] Instance enum_cast_TextureFormat : EnumCast TextureFormat.t :=
  fun format =>
  match format with
  | TextureFormat.RED => GL_RED
  | TextureFormat.RG => GL_RG
  | TextureFormat.RGB => GL_RGB
  | TextureFormat.RGBA => GL_RGBA
  | TextureFormat.BGR => GL_BGR
  | TextureFormat.BGRA => GL_BGRA
  | TextureFormat.R8u => GL_R8
  | TextureFormat.RG8u => GL_RG8
  | TextureFormat.RGB8u => GL_RGB8
  | TextureFormat.RGBA8u => GL_RGBA8
  | TextureFormat.R32f => GL_R32F
  | TextureFormat.RG32f => GL_RG32F
  | TextureFormat.RGB32f => GL_RGB32F
  | TextureFormat.RGBA32f => GL_RGBA32F
  end.

#[global] Instance enum_cast_TextureFilterMode : EnumCast TextureFilterMode.t :=
  fun mode =>
  match mode with
  | TextureFilterMode.Linear => GL_LINEAR
  | TextureFilterMode.Nearest => GL_NEAREST
  end.

#[global] Instance enum_cast_TextureWrapMode : EnumCast TextureWrapMode.t :=
  fun mode =>
  match mode with
  | TextureWrapMode.ClampToEdge => GL_CLAMP_TO_EDGE
  | TextureWrapMode.ClampToBorder => GL_CLAMP_TO_BORDER
  | TextureWrapMode.MirroredRepeat => GL_MIRRORED_REPEAT
  | TextureWrapMode.Repeat => GL_REPEAT
  | TextureWrapMode.MirrorClampToEdge => GL_MIRROR_CLAMP_TO_EDGE
  end.

Definition sizedToBase (format : TextureFormat.t) : TextureFormat.t :=
  match format with
  | TextureFormat.R8u | TextureFormat.R32f => TextureFormat.RED
  | TextureFormat.RG8u | TextureFormat.RG32f => TextureFormat.RG
  | TextureFormat.RGB8u | TextureFormat.RGB32f => TextureFormat.RGB
  | TextureFormat.RGBA8u | TextureFormat.RGBA32f => TextureFormat.RGBA
  | _ => format
  end.

(** The formats that carry a bit width, and the number of channels a format
    names; both follow the enumerators' names. *)
Definition is_sized (format : TextureFormat.t) : bool :=
  match format with
  | TextureFormat.R8u | TextureFormat.RG8u | TextureFormat.RGB8u
  | TextureFormat.RGBA8u | TextureFormat.R32f | TextureFormat.RG32f
  | TextureFormat.RGB32f | TextureFormat.RGBA32f => true
  | _ => false
  end.

Definition channel_count (format : TextureFormat.t) : Z :=
  match format with
  | TextureFormat.RED | TextureFormat.R8u | TextureFormat.R32f => 1
  | TextureFormat.RG | TextureFormat.RG8u | TextureFormat.RG32f => 2
  | TextureFormat.RGB | TextureFormat.BGR
  | TextureFormat.RGB8u | TextureFormat.RGB32f => 3
  | TextureFormat.RGBA | TextureFormat.BGRA
  | TextureFormat.RGBA8u | TextureFormat.RGBA32f => 4
  end.

(** ** Objects *)

Record Sampler := mkSampler {
  Sampler_index : Z;
  Sampler_texture : ptr
}.

Record UniformSetter := mkUniformSetter {
  UniformSetter_program : ptr;
  UniformSetter_index : Z
}.

Record Texture := mkTexture {
  Texture_handle : handle_t;
  Texture_format : TextureFormat.t
}.

Record Program := mkProgram {
  Program_handle : handle_t
}.

Record Buffer := mkBuffer {
  Buffer_handle : handle_t;
  Buffer_size : Z;
  Buffer_type : BufferType.t
}.

Record VertexArray := mkVertexArray {
  VertexArray_handle : handle_t;
  attachedBuffers : ptr;
  attachedBufferCount : Z
}.

Record TextureFilter := mkTextureFilter {
  filter_min : TextureFilterMode.t;
  filter_mag : TextureFilterMode.t
}.

Record TextureWrap := mkTextureWrap {
  wrap_s : TextureWrapMode.t;
  wrap_t : TextureWrapMode.t;
  wrap_r : TextureWrapMode.t
}.

Record TextureOptions := mkTextureOptions {
  options_filter : TextureFilter;
  options_wrap : TextureWrap
}.

Record TextureSourceData := mkTextureSourceData {
  desc_format : TextureFormat.t;
  desc_type : DataType.t;
  desc_data : ptr
}.

(** What a storage cell holds: a live object, an array of [Buffer*], or
    storage in which no object lives ([ORaw]: an object whose destructor has
    run but whose storage was not given back). *)
Inductive Obj :=
| OBuffer (b : Buffer)
| OVertexArray (v : VertexArray)
| OTexture (t : Texture)
| OProgram (p : Program)
| OSampler (s : Sampler)
| OPtrs (l : list ptr)
| ORaw.

(** ** Calls across the boundary *)

Inductive Call :=
| glGetError
| glUniform1fv (location count : Z) (value : ptr)
| glUniform2fv (location count : Z) (value : ptr)
| glUniform3fv (location count : Z) (value : ptr)
| glUniform4fv (location count : Z) (value : ptr)
| glUniform1iv (location count : Z) (value : ptr)
| glUniform2iv (location count : Z) (value : ptr)
| glUniform3iv (location count : Z) (value : ptr)
| glUniform4iv (location count : Z) (value : ptr)
| glUniformMatrix3x2fv (location count transpose : Z) (value : ptr)
| glUniformMatrix3fv (location count transpose : Z) (value : ptr)
| glUniformMatrix4x2fv (location count transpose : Z) (value : ptr)
| glUniformMatrix4x3fv (location count transpose : Z) (value : ptr)
| glUniformMatrix4fv (location count transpose : Z) (value : ptr)
| gladLoadGL
| glClearColor (r g b a : float)
| glClear (mask : Z)
| glActiveTexture (texture : GLenum)
| glBindTexture (target : GLenum) (texture : handle_t)
| glGetUniformLocation (program : handle_t) (name : StringView)
| glCreateShader (shaderType : GLenum)
| glShaderSource (shader : handle_t) (count : Z) (source : StringView) (length : Z)
| glCompileShader (shader : handle_t)
| glGetShaderiv (shader : handle_t) (pname : GLenum)
| glGetShaderInfoLog (shader : handle_t) (bufSize : Z) (infoLog : ptr)
| glDeleteShader (shader : handle_t)
| glCreateProgram
| glAttachShader (program shader : handle_t)
| glLinkProgram (program : handle_t)
| glGetProgramiv (program : handle_t) (pname : GLenum)
| glGetProgramInfoLog (program : handle_t) (bufSize : Z) (infoLog : ptr)
| glDeleteProgram (program : handle_t)
| glUseProgram (program : handle_t)
| glGenBuffers (n : Z)
| glBindBuffer (target : GLenum) (buffer : handle_t)
| glBufferData (target : GLenum) (size : Z) (data : ptr) (usage : GLenum)
| glBufferSubData (target : GLenum) (offset size : Z) (data : ptr)
| glDeleteBuffers (n : Z) (buffer : handle_t)
| glGenVertexArrays (n : Z)
| glBindVertexArray (array : handle_t)
| glDeleteVertexArrays (n : Z) (array : handle_t)
| glDrawArrays (mode : GLenum) (first count : Z)
| glGenTextures (n : Z)
| glTexImage2D (target : GLenum) (level : Z) (internalformat : GLenum)
    (width height border : Z) (format type : GLenum) (pixels : ptr)
| glTexSubImage2D (target : GLenum) (level xoffset yoffset width height : Z)
    (format type : GLenum) (pixels : ptr)
| glTexParameteri (target pname : GLenum) (param : Z)
| glDeleteTextures (n : Z) (texture : handle_t)
| glEnableVertexAttribArray (index : Z)
| glVertexAttribPointer (index size : Z) (type : GLenum) (normalized : Z)
    (stride : Z) (pointer : Z)
| debug_break
| allocate (funcs : ptr) (size : Z)
| free (funcs : ptr) (p : ptr).

(** A recorded call with what it answered: the return value, or the value
    left in its single out-parameter; [0] for a call that answers nothing. *)
Record Event := mkEvent { ev_call : Call; ev_ret : Z }.

Record World := mkWorld {
  allocator : ptr;
  heap : gmap Z Obj;
  device : list Event -> Call -> Z;
  trace : list Event
}.

(** ** The monad of library code: state, with undefined behaviour as [None] *)

Definition M (A : Type) : Type := World -> option (A * World).

#[global] Instance M_ret : MRet M := fun A a w => Some (a, w).
#[global] Instance M_bind : MBind M := fun A B k m w =>
  match m w with
  | Some (a, w') => k a w'
  | None => None
  end.

Definition undefined {A} : M A := fun _ => None.

(** A call whose answer is used. *)
Definition call (c : Call) : M Z := fun w =>
  let r := device w (trace w) c in
  Some (r, mkWorld (allocator w) (heap w) (device w)
                   (trace w ++ [mkEvent c r])).

(** A call that answers nothing. *)
Definition call_ (c : Call) : M unit := fun w =>
  Some (tt, mkWorld (allocator w) (heap w) (device w)
                    (trace w ++ [mkEvent c 0])).

Definition get_allocator : M ptr := fun w => Some (allocator w, w).
Definition set_allocator (a : ptr) : M unit := fun w =>
  Some (tt, mkWorld a (heap w) (device w) (trace w)).

Definition load (p : ptr) : M Obj := fun w =>
  match heap w !! p with
  | Some o => Some (o, w)
  | None => None
  end.

Definition store (p : ptr) (o : Obj) : M unit := fun w =>
  match heap w !! p with
  | Some _ => Some (tt, mkWorld (allocator w) (<[p := o]> (heap w))
                                (device w) (trace w))
  | None => None
  end.

(** Construct an object in storage the allocator has just handed out:
    undefined at the null pointer or over a cell already in use. *)
Definition place (p : ptr) (o : Obj) : M unit := fun w =>
  if p =? nullptr then None
  else match heap w !! p with
       | Some _ => None
       | None => Some (tt, mkWorld (allocator w) (<[p := o]> (heap w))
                                   (device w) (trace w))
       end.

Definition release (p : ptr) : M unit := fun w =>
  Some (tt, mkWorld (allocator w) (delete p (heap w)) (device w) (trace w)).

Definition load_Buffer (p : ptr) : M Buffer :=
  o ← load p; match o with OBuffer b => mret b | _ => undefined end.
Definition load_VertexArray (p : ptr) : M VertexArray :=
  o ← load p; match o with OVertexArray v => mret v | _ => undefined end.
Definition load_Texture (p : ptr) : M Texture :=
  o ← load p; match o with OTexture t => mret t | _ => undefined end.
Definition load_Program (p : ptr) : M Program :=
  o ← load p; match o with OProgram t => mret t | _ => undefined end.
Definition load_Sampler (p : ptr) : M Sampler :=
  o ← load p; match o with OSampler s => mret s | _ => undefined end.
Definition load_Ptrs (p : ptr) : M (list ptr) :=
  o ← load p; match o with OPtrs l => mret l | _ => undefined end.

(** The events a computation appended. *)
Definition new_events (w w' : World) : list Event :=
  drop (length (trace w)) (trace w').

(** ** modernglpp.cc *)

(** [glGetErrorString]: the name of the pending device error, if any. *)
Definition glGetErrorString : M (option string) :=
  e ← call glGetError;
  mret (if e =? GL_INVALID_ENUM then Some "GL_INVALID_ENUM"%string
        else if e =? GL_INVALID_VALUE then Some "GL_INVALID_VALUE"%string
        else if e =? GL_INVALID_OPERATION then Some "GL_INVALID_OPERATION"%string
        else if e =? GL_OUT_OF_MEMORY then Some "GL_OUT_OF_MEMORY"%string
        else None).

(** [debug_break ()] raises a breakpoint trap; it is recorded and execution
    resumes, as it does under a debugger. *)
Definition MGL_ASSERT (expr : bool) : M unit :=
  if negb expr then call_ debug_break else mret tt.

Definition MGL_OPENGL_CHECK : M unit :=
  err ← glGetErrorString;
  match err with
  | Some _ => call_ debug_break
  | None => mret tt
  end.

(** [allocator->allocate (allocator->user, size)] and
    [allocator->free (allocator->user, ptr)]: calls through the installed
    [AllocatorFuncs]; through a null [allocator] they are undefined. *)
Definition allocator_allocate (size : Z) : M ptr :=
  a ← get_allocator;
  if a =? nullptr then undefined else call (allocate a size).

Definition allocator_free (p : ptr) : M unit :=
  a ← get_allocator;
  if a =? nullptr then undefined
  else (call_ (free a p);; release p).

(** [newObject<T> (args...)]: storage from the allocator, then placement
    construction. *)
Definition newObject (sizeof_T : Z) (object : Obj) : M ptr :=
  p ← allocator_allocate sizeof_T;
  place p object;;
  mret p.

(** [deleteObject<T> (ptr)]: destructor, then the storage goes back. *)
Definition deleteObject (dtor : ptr -> M unit) (p : ptr) : M unit :=
  if negb (p =? nullptr) then (dtor p;; allocator_free p) else mret tt.

(** *** The upload primitives *)

Definition set_uniform_f1 (p : ptr) (index : Z) (data : View.t) : M unit :=
  MGL_ASSERT (View.size data =? 1);;
  call_ (glUniform1fv index 1 (View.data data)).

Definition set_uniform_f2 (p : ptr) (index : Z) (data : View.t) : M unit :=
  MGL_ASSERT (View.size data =? 2);;
  call_ (glUniform2fv index 1 (View.data data)).

Definition set_uniform_f3 (p : ptr) (index : Z) (data : View.t) : M unit :=
  MGL_ASSERT (View.size data =? 3);;
  call_ (glUniform3fv index 1 (View.data data)).

Definition set_uniform_f4 (p : ptr) (index : Z) (data : View.t) : M unit :=
  MGL_ASSERT (View.size data =? 4);;
  call_ (glUniform4fv index 1 (View.data data)).

Definition set_uniform_i1 (p : ptr) (index : Z) (data : View.t) : M unit :=
  MGL_ASSERT (View.size data =? 1);;
  call_ (glUniform1iv index 1 (View.data data)).

Definition set_uniform_i2 (p : ptr) (index : Z) (data : View.t) : M unit :=
  MGL_ASSERT (View.size data =? 2);;
  call_ (glUniform2iv index 1 (View.data data)).

Definition set_uniform_i3 (p : ptr) (index : Z) (data : View.t) : M unit :=
  MGL_ASSERT (View.size data =? 3);;
  call_ (glUniform3iv index 1 (View.data data)).

Definition set_uniform_i4 (p : ptr) (index : Z) (data : View.t) : M unit :=
  MGL_ASSERT (View.size data =? 4);;
  call_ (glUniform4iv index 1 (View.data data)).

Definition set_uniform_m3x2 (p : ptr) (index : Z) (data : View.t) : M unit :=
  MGL_ASSERT (View.size data =? 3 * 2);;
  call_ (glUniformMatrix3x2fv index 1 GL_FALSE (View.data data)).

Definition set_uniform_m3x3 (p : ptr) (index : Z) (data : View.t) : M unit :=
  MGL_ASSERT (View.size data =? 3 * 3);;
  call_ (glUniformMatrix3fv index 1 GL_FALSE (View.data data)).

Definition set_uniform_m4x2 (p : ptr) (index : Z) (data : View.t) : M unit :=
  MGL_ASSERT (View.size data =? 4 * 2);;
  call_ (glUniformMatrix4x2fv index 1 GL_FALSE (View.data data)).

Definition set_uniform_m4x3 (p : ptr) (index : Z) (data : View.t) : M unit :=
  MGL_ASSERT (View.size data =? 4 * 3);;
  call_ (glUniformMatrix4x3fv index 1 GL_FALSE (View.data data)).

Definition set_uniform_m4x4 (p : ptr) (index : Z) (data : View.t) : M unit :=
  MGL_ASSERT (View.size data =? 4 * 4);;
  call_ (glUniformMatrix4fv index 1 GL_FALSE (View.data data)).

(** [set_uniform<Sampler>]: [&value.index] is the address of the first
    member of [value]. *)
Definition offsetof_Sampler_index : Z := 0.

Definition set_uniform_Sampler (p : ptr) (index : Z) (value : ptr) : M unit :=
  set_uniform_i1 p index (View.mk (value + offsetof_Sampler_index) 1).

(** *** The Uniform family: the specialisations of [modernglpp.cc] and of
    [example.cc] *)

Inductive UniformType :=
| U_float | U_int | U_Sampler
| U_glm_vec2 | U_glm_vec3 | U_glm_vec4
| U_glm_mat3 | U_glm_mat4.

Definition Uniform (T : UniformType) (p : ptr) (index : Z) (value : ptr)
  : M unit :=
  match T with
  | U_float => set_uniform_f1 p index (View.mk value 1)
  | U_int => set_uniform_i1 p index (View.mk value 1)
  | U_Sampler => set_uniform_Sampler p index value
  | U_glm_vec2 => set_uniform_f2 p index (View.fromObject T_glm_vec2 value)
  | U_glm_vec3 => set_uniform_f3 p index (View.fromObject T_glm_vec3 value)
  | U_glm_vec4 => set_uniform_f4 p index (View.fromObject T_glm_vec4 value)
  | U_glm_mat3 => set_uniform_m3x3 p index (View.fromObject T_glm_mat3 value)
  | U_glm_mat4 => set_uniform_m4x4 p index (View.fromObject T_glm_mat4 value)
  end.

(** [UniformSetter::operator= (const T& value)]. *)
Definition UniformSetter_assign (T : UniformType) (setter : UniformSetter)
    (value : ptr) : M unit :=
  Uniform T (UniformSetter_program setter) (UniformSetter_index setter) value.

(** *** The Attribute family: [Attribute<float>] and the [glm::vec2]
    specialisation of [example.cc] *)

Definition Attribute_float (index size stride offset : Z) : M unit :=
  call_ (glEnableVertexAttribArray index);;
  call_ (glVertexAttribPointer index size GL_FLOAT GL_FALSE stride offset).

Definition Attribute_glm_vec2 (index stride offset : Z) : M unit :=
  Attribute_float index 2 stride offset.

(** *** init, clear *)

Definition init (allocator : ptr) : M unit :=
  set_allocator allocator;;
  call_ gladLoadGL.

Definition bool_to_int (b : bool) : Z := if b then 1 else 0.

(** The argument of [glClear] as the compiler reads it: [|] binds tighter
    than [?:], so the expression is
    [clearColour ? GL_COLOR_BUFFER_BIT
                 : ((0 | clearDepth) ? GL_DEPTH_BUFFER_BIT : 0)]. *)
Definition clear (r g b : float) (clearColour clearDepth : bool) : M unit :=
  call_ (glClearColor r g b float_of_int_1);;
  call_ (glClear (if clearColour then GL_COLOR_BUFFER_BIT
                  else if negb (Z.lor 0 (bool_to_int clearDepth) =? 0)
                       then GL_DEPTH_BUFFER_BIT
                       else 0)).

(** *** Sampler *)

(** [Sampler::Sampler (int slotIndex) : index (slotIndex) {}].  The
    constructor initialises [index] only; [texture] has no initialiser in
    the class, so it keeps whatever the storage held. *)
Definition Sampler_ctor (this : ptr) (slotIndex : Z) : M unit :=
  storage ← load_Sampler this;
  store this (OSampler (mkSampler slotIndex (Sampler_texture storage))).

Definition Sampler_setTexture (this : ptr) (texture : ptr) : M unit :=
  s ← load_Sampler this;
  store this (OSampler (mkSampler (Sampler_index s) texture)).

Definition Sampler_bind (this : ptr) : M unit :=
  s ← load_Sampler this;
  call_ (glActiveTexture (to_u32 (GL_TEXTURE0 + Sampler_index s)));;
  h ← (if negb (Sampler_texture s =? nullptr)
       then (t ← load_Texture (Sampler_texture s); mret (Texture_handle t))
       else mret 0);
  call_ (glBindTexture GL_TEXTURE_2D h);;
  MGL_OPENGL_CHECK.

(** *** Program *)

Definition Program_uniform (this : ptr) (name : StringView) : M UniformSetter :=
  p ← load_Program this;
  location ← call (glGetUniformLocation (Program_handle p) name);
  mret (mkUniformSetter this location).

(** The lambda [compile] of [Program::make].  [result] is taken by
    reference: its new value is returned next to the shader name. *)
Definition compile (source : StringView) (shaderType : GLenum)
    (result : View.t) : M (handle_t * View.t) :=
  let length := to_s32 (StringView_size source) in
  s ← call (glCreateShader shaderType);
  call_ (glShaderSource s 1 source length);;
  call_ (glCompileShader s);;
  successFlag ← call (glGetShaderiv s GL_COMPILE_STATUS);
  MGL_OPENGL_CHECK;;
  '(s, result) ←
    (if successFlag =? GL_FALSE then
       result ←
         (if negb (View.empty result) then
            errLen ← call (glGetShaderInfoLog s
                             (to_s32 (View.size result - 1))
                             (View.data result));
            mret (View.mk (View.data result) (to_size_t errLen))
          else mret result);
       call_ (glDeleteShader s);;
       mret (0, result)
     else mret (s, result));
  MGL_OPENGL_CHECK;;
  mret (s, result).

Definition Program_make (vertexShaderSource fragShaderSource : StringView)
    (result : View.t) : M (ptr * View.t) :=
  '(vs, result) ← compile vertexShaderSource GL_VERTEX_SHADER result;
  if vs =? 0 then mret (nullptr, result) else
  '(fs, result) ← compile fragShaderSource GL_FRAGMENT_SHADER result;
  if fs =? 0 then mret (nullptr, result) else
  p ← call glCreateProgram;
  call_ (glAttachShader p vs);;
  call_ (glAttachShader p fs);;
  call_ (glDeleteShader vs);;
  call_ (glDeleteShader fs);;
  call_ (glLinkProgram p);;
  successFlag ← call (glGetProgramiv p GL_LINK_STATUS);
  MGL_OPENGL_CHECK;;
  if successFlag =? GL_FALSE then
    result ←
      (if negb (View.empty result) then
         errLen ← call (glGetProgramInfoLog p
                          (to_s32 (View.size result - 1))
                          (View.data result));
         mret (View.mk (View.data result) (to_size_t errLen))
       else mret result);
    call_ (glDeleteProgram p);;
    mret (nullptr, result)
  else
    MGL_OPENGL_CHECK;;
    obj ← newObject sizeof_Program (OProgram (mkProgram p));
    mret (obj, result).

(** A destructor ends the object's lifetime; its storage stays where it
    is. *)
Definition Program_dtor (this : ptr) : M unit :=
  p ← load_Program this;
  call_ (glDeleteProgram (Program_handle p));;
  store this ORaw.

Definition Program_use (this : ptr) : M unit :=
  p ← load_Program this;
  call_ (glUseProgram (Program_handle p)).

(** *** Buffer *)

Definition Buffer_make (type : BufferType.t) (size : Z) (data : ptr)
    (dynamic : bool) : M ptr :=
  handle ← call (glGenBuffers 1);
  call_ (glBindBuffer (enum_cast type) handle);;
  call_ (glBufferData (enum_cast type) size data
           (if dynamic then GL_DYNAMIC_DRAW else GL_STATIC_DRAW));;
  MGL_OPENGL_CHECK;;
  newObject sizeof_Buffer (OBuffer (mkBuffer handle size type)).

Definition Buffer_dtor (this : ptr) : M unit :=
  b ← load_Buffer this;
  call_ (glDeleteBuffers 1 (Buffer_handle b));;
  store this ORaw.

Definition Buffer_bind (this : ptr) : M unit :=
  b ← load_Buffer this;
  call_ (glBindBuffer (enum_cast (Buffer_type b)) (Buffer_handle b));;
  MGL_OPENGL_CHECK.

Definition Buffer_write (this : ptr) (data : ptr) (len offset : Z) : M unit :=
  b ← load_Buffer this;
  call_ (glBindBuffer (enum_cast (Buffer_type b)) (Buffer_handle b));;
  call_ (glBufferSubData (enum_cast (Buffer_type b)) offset len data);;
  MGL_OPENGL_CHECK.

(** *** VertexArray *)

(** [view[index]] on a [View<Buffer*>]: the element of the array the view
    starts at. *)
Definition View_index (view : View.t) (index : nat) : M ptr :=
  l ← load_Ptrs (View.first view);
  match l !! index with
  | Some p => mret p
  | None => undefined
  end.

(** [vao->attachedBuffers[i] = buffer]. *)
Definition store_attached (vao : ptr) (i : nat) (buffer : ptr) : M unit :=
  v ← load_VertexArray vao;
  l ← load_Ptrs (attachedBuffers v);
  if decide (i < length l)%nat
  then store (attachedBuffers v) (OPtrs (<[i := buffer]> l))
  else undefined.

(** The copy loop of [VertexArray::make], from index [i], [n] iterations
    left. *)
Fixpoint copy_attached (vao : ptr) (buffers : View.t) (i n : nat) : M unit :=
  match n with
  | O => mret tt
  | S n' =>
      b ← View_index buffers i;
      store_attached vao i b;;
      copy_attached vao buffers (S i) n'
  end.

(** [VertexArray::make].  The arguments of [newObject] are evaluated before
    it is entered, so the array of links is allocated first; its cells are
    all written by the loop before anything reads them. *)
Definition VertexArray_make (buffers : View.t)
    (callback : handle_t -> View.t -> M unit) : M ptr :=
  handle ← call (glGenVertexArrays 1);
  call_ (glBindVertexArray handle);;
  MGL_OPENGL_CHECK;;
  callback handle buffers;;
  MGL_OPENGL_CHECK;;
  links ← allocator_allocate (to_size_t (View.size buffers * sizeof_ptr));
  place links (OPtrs (replicate (Z.to_nat (View.size buffers)) nullptr));;
  vao ← newObject sizeof_VertexArray
          (OVertexArray (mkVertexArray handle links (View.size buffers)));
  copy_attached vao buffers 0 (Z.to_nat (View.size buffers));;
  mret vao.

Definition VertexArray_getBuffers (this : ptr) : M View.t :=
  v ← load_VertexArray this;
  mret (View.mk (attachedBuffers v) (attachedBufferCount v)).

(** The range-for of the destructor over [getBuffers ()], from index [i],
    [n] iterations left. *)
Fixpoint destroy_attached (view : View.t) (i n : nat) : M unit :=
  match n with
  | O => mret tt
  | S n' =>
      buffer ← View_index view i;
      Buffer_dtor buffer;;
      destroy_attached view (S i) n'
  end.

Definition VertexArray_dtor (this : ptr) : M unit :=
  v ← load_VertexArray this;
  call_ (glDeleteVertexArrays 1 (VertexArray_handle v));;
  view ← VertexArray_getBuffers this;
  destroy_attached view 0 (Z.to_nat (View.size view));;
  allocator_free (attachedBuffers v);;
  store this ORaw.

Definition VertexArray_bind (this : ptr) : M unit :=
  v ← load_VertexArray this;
  call_ (glBindVertexArray (VertexArray_handle v));;
  MGL_OPENGL_CHECK.

Definition VertexArray_draw (this : ptr) (mode : DrawMode.t)
    (offset count : Z) : M unit :=
  _ ← load_VertexArray this;
  match mode with
  | DrawMode.Triangles => call_ (glDrawArrays GL_TRIANGLES offset count)
  | DrawMode.Lines => call_ (glDrawArrays GL_LINES offset count)
  | DrawMode.Points => call_ (glDrawArrays GL_POINTS offset count)
  end;;
  MGL_OPENGL_CHECK.

(** *** Texture *)

Definition Texture_write (this : ptr) (x y w h : Z)
    (sourceDataType : DataType.t) (data : ptr) : M unit :=
  t ← load_Texture this;
  call_ (glBindTexture GL_TEXTURE_2D (Texture_handle t));;
  call_ (glTexSubImage2D GL_TEXTURE_2D 0 x y w h
           (enum_cast (Texture_format t)) (enum_cast sourceDataType) data);;
  MGL_OPENGL_CHECK.

Definition Texture_setOptions (this : ptr) (options : TextureOptions)
  : M unit :=
  t ← load_Texture this;
  call_ (glBindTexture GL_TEXTURE_2D (Texture_handle t));;
  call_ (glTexParameteri GL_TEXTURE_2D GL_TEXTURE_MIN_FILTER
           (enum_cast (filter_min (options_filter options))));;
  call_ (glTexParameteri GL_TEXTURE_2D GL_TEXTURE_MAG_FILTER
           (enum_cast (filter_mag (options_filter options))));;
  call_ (glTexParameteri GL_TEXTURE_2D GL_TEXTURE_WRAP_S
           (enum_cast (wrap_s (options_wrap options))));;
  call_ (glTexParameteri GL_TEXTURE_2D GL_TEXTURE_WRAP_T
           (enum_cast (wrap_t (options_wrap options))));;
  call_ (glTexParameteri GL_TEXTURE_2D GL_TEXTURE_WRAP_R
           (enum_cast (wrap_r (options_wrap options))));;
  MGL_OPENGL_CHECK.

(** [Texture::make]; a null [desc] is [None]. *)
Definition Texture_make (w h : Z) (deviceFormat : TextureFormat.t)
    (desc : option TextureSourceData) : M ptr :=
  handle ← call (glGenTextures 1);
  call_ (glBindTexture GL_TEXTURE_2D handle);;
  match desc with
  | Some desc =>
      call_ (glTexImage2D GL_TEXTURE_2D 0
               (enum_cast deviceFormat) w h 0
               (enum_cast (sizedToBase (desc_format desc)))
               (enum_cast (desc_type desc)) (desc_data desc))
  | None =>
      call_ (glTexImage2D GL_TEXTURE_2D 0
               (enum_cast deviceFormat) w h 0
               (enum_cast (sizedToBase deviceFormat))
               GL_UNSIGNED_BYTE nullptr)
  end;;
  MGL_OPENGL_CHECK;;
  newObject sizeof_Texture (OTexture (mkTexture handle deviceFormat)).

Definition Texture_dtor (this : ptr) : M unit :=
  t ← load_Texture this;
  call_ (glDeleteTextures 1 (Texture_handle t));;
  MGL_OPENGL_CHECK;;
  store this ORaw.

(** ** Reading a trace *)

Definition is_debug_break (e : Event) : bool :=
  match ev_call e with debug_break => true | _ => false end.

Definition is_buffer_destroy (e : Event) : bool :=
  match ev_call e with glDeleteBuffers _ _ => true | _ => false end.

(** No assertion and no device check trapped. *)
Definition no_trap (tr : list Event) : bool :=
  forallb (fun e => negb (is_debug_break e)) tr.

(** What the destruction of the Buffer [b] shows the device. *)
Definition destroy_event (b : Buffer) : Event :=
  mkEvent (glDeleteBuffers 1 (Buffer_handle b)) 0.

Definition buffer_destroys (tr : list Event) : nat :=
  length (List.filter is_buffer_destroy tr).

(** Shader and program names the device handed out, and those given to the
    matching delete call. *)
Definition shaders_created (tr : list Event) : list handle_t :=
  omap (fun e => match ev_call e with
                 | glCreateShader _ => Some (ev_ret e)
                 | _ => None
                 end) tr.

Definition shaders_deleted (tr : list Event) : list handle_t :=
  omap (fun e => match ev_call e with
                 | glDeleteShader s => Some s
                 | _ => None
                 end) tr.

Definition programs_created (tr : list Event) : list handle_t :=
  omap (fun e => match ev_call e with
                 | glCreateProgram => Some (ev_ret e)
                 | _ => None
                 end) tr.

Definition programs_deleted (tr : list Event) : list handle_t :=
  omap (fun e => match ev_call e with
                 | glDeleteProgram s => Some s
                 | _ => None
                 end) tr.

Definition not_among (l : list Z) (x : Z) : bool :=
  negb (existsb (Z.eqb x) l).

Definition shaders_leaked (tr : list Event) : list handle_t :=
  List.filter (not_among (shaders_deleted tr)) (shaders_created tr).

Definition programs_leaked (tr : list Event) : list handle_t :=
  List.filter (not_among (programs_deleted tr)) (programs_created tr).

(** Storage obtained from the allocator instance [funcs], and storage given
    back to it. *)
Definition allocated_by (funcs : ptr) (tr : list Event) : list ptr :=
  omap (fun e => match ev_call e with
                 | allocate f _ => if f =? funcs then Some (ev_ret e) else None
                 | _ => None
                 end) tr.

Definition freed_by (funcs : ptr) (tr : list Event) : list ptr :=
  omap (fun e => match ev_call e with
                 | free f p => if f =? funcs then Some p else None
                 | _ => None
                 end) tr.

Definition never_freed (funcs : ptr) (tr : list Event) : list ptr :=
  List.filter (not_among (freed_by funcs tr)) (allocated_by funcs tr).

(** The image uploads of a trace and their source-format and element-type
    arguments. *)
Definition uploads (tr : list Event) : list Call :=
  omap (fun e => match ev_call e with
                 | glTexImage2D _ _ _ _ _ _ _ _ _ => Some (ev_call e)
                 | _ => None
                 end) tr.

Definition upload_format (c : Call) : option GLenum :=
  match c with
  | glTexImage2D _ _ _ _ _ _ format _ _ => Some format
  | _ => None
  end.

Definition upload_type (c : Call) : option GLenum :=
  match c with
  | glTexImage2D _ _ _ _ _ _ _ type _ => Some type
  | _ => None
  end.

(** The calls of a trace that reach the device clear. *)
Definition clear_masks (tr : list Event) : list Z :=
  omap (fun e => match ev_call e with
                 | glClear mask => Some mask
                 | _ => None
                 end) tr.

Definition has_bit (mask bit : Z) : bool := negb (Z.land mask bit =? 0).

(** ** The tables of the specification *)

(** The arity the specification gives each semantic value type. *)
Definition spec_arity (T : UniformType) : Z :=
  match T with
  | U_float | U_int | U_Sampler => 1
  | U_glm_vec2 => 2
  | U_glm_vec3 => 3
  | U_glm_vec4 => 4
  | U_glm_mat3 => 9
  | U_glm_mat4 => 16
  end.

(** The upload primitive the specification matches to each type, its fixed
    arity (the constant of its assertion), and the device call it makes. *)
Inductive Primitive :=
| P_f1 | P_f2 | P_f3 | P_f4 | P_i1 | P_i2 | P_i3 | P_i4
| P_m3x2 | P_m3x3 | P_m4x2 | P_m4x3 | P_m4x4.

Definition spec_primitive (T : UniformType) : Primitive :=
  match T with
  | U_float => P_f1
  | U_int | U_Sampler => P_i1
  | U_glm_vec2 => P_f2
  | U_glm_vec3 => P_f3
  | U_glm_vec4 => P_f4
  | U_glm_mat3 => P_m3x3
  | U_glm_mat4 => P_m4x4
  end.

Definition set_uniform_ (P : Primitive) : ptr -> Z -> View.t -> M unit :=
  match P with
  | P_f1 => set_uniform_f1 | P_f2 => set_uniform_f2
  | P_f3 => set_uniform_f3 | P_f4 => set_uniform_f4
  | P_i1 => set_uniform_i1 | P_i2 => set_uniform_i2
  | P_i3 => set_uniform_i3 | P_i4 => set_uniform_i4
  | P_m3x2 => set_uniform_m3x2 | P_m3x3 => set_uniform_m3x3
  | P_m4x2 => set_uniform_m4x2 | P_m4x3 => set_uniform_m4x3
  | P_m4x4 => set_uniform_m4x4
  end.

Definition primitive_arity (P : Primitive) : Z :=
  match P with
  | P_f1 | P_i1 => 1
  | P_f2 | P_i2 => 2
  | P_f3 | P_i3 => 3
  | P_f4 | P_i4 => 4
  | P_m3x2 => 3 * 2
  | P_m3x3 => 3 * 3
  | P_m4x2 => 4 * 2
  | P_m4x3 => 4 * 3
  | P_m4x4 => 4 * 4
  end.

Definition primitive_call (P : Primitive) (index : Z) (value : ptr) : Call :=
  match P with
  | P_f1 => glUniform1fv index 1 value
  | P_f2 => glUniform2fv index 1 value
  | P_f3 => glUniform3fv index 1 value
  | P_f4 => glUniform4fv index 1 value
  | P_i1 => glUniform1iv index 1 value
  | P_i2 => glUniform2iv index 1 value
  | P_i3 => glUniform3iv index 1 value
  | P_i4 => glUniform4iv index 1 value
  | P_m3x2 => glUniformMatrix3x2fv index 1 GL_FALSE value
  | P_m3x3 => glUniformMatrix3fv index 1 GL_FALSE value
  | P_m4x2 => glUniformMatrix4x2fv index 1 GL_FALSE value
  | P_m4x3 => glUniformMatrix4x3fv index 1 GL_FALSE value
  | P_m4x4 => glUniformMatrix4fv index 1 GL_FALSE value
  end.

(** An operation that leaves the object store and the installed allocator
    as they were. *)
Definition preserves_objects {A} (m : M A) : Prop :=
  forall w r w', m w = Some (r, w') ->
    heap w' = heap w /\ allocator w' = allocator w.

(** ** A concrete device, for worked runs *)

(** Names and addresses are fresh (they grow with the history); a shader
    compiles exactly when the source last given to it starts with a
    [#version] line; linking succeeds; no error is ever pending. *)
Fixpoint last_source (s : handle_t) (tr : list Event) : option StringView :=
  match tr with
  | [] => None
  | e :: tr' =>
      match last_source s tr' with
      | Some src => Some src
      | None =>
          match ev_call e with
          | glShaderSource s' _ src _ => if s' =? s then Some src else None
          | _ => None
          end
      end
  end.

Definition demo_device (tr : list Event) (c : Call) : Z :=
  let fresh := 1 + Z.of_nat (length tr) in
  match c with
  | glCreateShader _ | glCreateProgram
  | glGenBuffers _ | glGenVertexArrays _ | glGenTextures _ => fresh
  | allocate _ _ => 0x1000 + 0x100 * fresh
  | glGetShaderiv s _ =>
      match last_source s tr with
      | Some src => if String.prefix "#version" src then 1 else 0
      | None => 0
      end
  | glGetProgramiv _ _ => 1
  | glGetShaderInfoLog _ bufSize _
  | glGetProgramInfoLog _ bufSize _ => Z.max 0 (Z.min 24 (bufSize - 1))
  | _ => 0
  end.

Definition default_allocator : ptr := 0x10.

Definition demo_world : World := mkWorld nullptr ∅ demo_device [].

Definition vertex_ok : StringView :=
  MGL_GLSL "410" "void main() { gl_Position = vec4(0, 0, 0, 1); }".

Definition fragment_ok : StringView :=
  MGL_GLSL "410" "out vec4 fragColour; void main() { fragColour = vec4(1); }".

Definition fragment_bad : StringView := "out vec4 fragColour; void main() {".

(** The trace a run leaves, when it is defined. *)
Definition trace_of {A} (r : option (A * World)) : option (list Event) :=
  (fun '(_, w) => trace w) <$> r.

Definition calls_of {A} (r : option (A * World)) : option (list Call) :=
  (fun '(_, w) => ev_call <$> trace w) <$> r.

Definition result_of {A} (r : option (A * World)) : option A :=
  fst <$> r.

(** The configuration callback of [example.cc]. *)
Definition example_callback (_ : handle_t) (buffers : View.t) : M unit :=
  b ← View_index buffers 0;
  Buffer_bind b;;
  Attribute_glm_vec2 0 8 0.

Definition no_callback (_ : handle_t) (_ : View.t) : M unit := mret tt.

(** The caller's local array of [Buffer*]. *)
Definition local_array (address : ptr) (l : list ptr) : M unit :=
  place address (OPtrs l).


(** *** Worked inputs *)

(** After [mgl::init ()] with the default allocator. *)
Definition installed_world : World :=
  mkWorld default_allocator ∅ demo_device [].

(** A device like [demo_device] on which linking fails. *)
Definition link_fail_device (tr : list Event) (c : Call) : Z :=
  match c with
  | glGetProgramiv _ _ => 0
  | _ => demo_device tr c
  end.

Definition link_fail_world : World :=
  mkWorld default_allocator ∅ link_fail_device [].

(** The caller's diagnostic buffer: [char error[1024]]. *)
Definition error_buffer : View.t := View.mk 0x500 1024.

(** A VertexArray at [0x400] that owns two Buffers. *)
Definition buffer_a : Buffer := mkBuffer 1 4096 BufferType.Array.
Definition buffer_b : Buffer := mkBuffer 2 64 BufferType.Element.
Definition vertex_array_ab : VertexArray := mkVertexArray 3 0x300 2.

Definition two_buffer_world : World :=
  mkWorld default_allocator
    (<[0x100 := OBuffer buffer_a]>
       (<[0x200 := OBuffer buffer_b]>
          (<[0x300 := OPtrs [0x100; 0x200]]>
             (<[0x400 := OVertexArray vertex_array_ab]> ∅))))
    demo_device [].

(** The life of the vertex array of [example.cc]: one Buffer, handed to a
    VertexArray, which is then deleted. *)
Definition vertex_array_lifecycle : M (ptr * ptr) :=
  init default_allocator;;
  vbo ← Buffer_make BufferType.Array 4096 nullptr true;
  local_array 0x20 [vbo];;
  vao ← VertexArray_make (View.mk 0x20 1) example_callback;
  deleteObject VertexArray_dtor vao;;
  mret (vbo, vao).

(** [VertexArray::make] on [n] fresh Buffers, then the destructor. *)
Fixpoint make_buffers (n : nat) : M (list ptr) :=
  match n with
  | O => mret []
  | S n' =>
      b ← Buffer_make BufferType.Array 16 nullptr true;
      bs ← make_buffers n';
      mret (b :: bs)
  end.

Definition make_then_destroy (n : nat) : M unit :=
  bs ← make_buffers n;
  local_array 0x20 bs;;
  vao ← VertexArray_make (View.mk 0x20 (Z.of_nat n)) no_callback;
  VertexArray_dtor vao.

(** Storage for a Sampler at [0x40] that still holds what was there
    before: an index of 99 and the address of a live Texture. *)
Definition stale_texture : Texture := mkTexture 7 TextureFormat.RGBA8u.

Definition stale_sampler_world : World :=
  mkWorld default_allocator
    (<[0x40 := OSampler (mkSampler 99 0x50)]>
       (<[0x50 := OTexture stale_texture]> ∅))
    demo_device [].

(** The same storage holding an address at which nothing lives. *)
Definition dangling_sampler_world : World :=
  mkWorld default_allocator
    (<[0x40 := OSampler (mkSampler 99 0x50)]> ∅)
    demo_device [].

(** BGRA bytes as the source of an RGBA8 texture. *)
Definition bgra_source : TextureSourceData :=
  mkTextureSourceData TextureFormat.BGRA DataType.Byte 0x600.

Definition after {A} (r : option (A * World)) (w : World) : World :=
  match r with Some (_, w') => w' | None => w end.

Definition returned {A} (r : option (A * World)) (a : A) : A :=
  match r with Some (a', _) => a' | None => a end.

(** The handle [bind] gives the device: null for a null [texture], the
    handle of the Texture [texture] points to when one lives there. *)
Definition bound_handle (w : World) (s : Sampler) : option handle_t :=
  if Sampler_texture s =? nullptr then Some 0
  else match heap w !! Sampler_texture s with
       | Some (OTexture t) => Some (Texture_handle t)
       | _ => None
       end.

(** ** StringView over a C string *)

(** [StringView::stringLength (const char* string)].  The characters are
    those of the array [string] points into, from [string] on; a null
    [string] is [None].  The loop reads one character per turn; reading
    past the end of the array has no defined result. *)
Fixpoint stringLength_loop (chars : list Z) (len : Z) : option Z :=
  match chars with
  | [] => None
  | c :: chars' =>
      if c =? 0 then Some len
      else stringLength_loop chars' (to_size_t (len + 1))
  end.

Definition stringLength (string : option (list Z)) : option Z :=
  match string with
  | None => Some 0
  | Some chars => stringLength_loop chars 0
  end.

(** [StringView (const char* string)] and [operator bool]. *)
Definition StringView_ctor (string : ptr) (chars : option (list Z))
  : option View.t :=
  len ← stringLength chars; Some (View.mk string len).

Definition StringView_bool (v : View.t) : bool := negb (View.empty v).


(** [Program::operator[]]. *)
Definition Program_subscript (this : ptr) (name : StringView)
  : M UniformSetter :=
  p ← load_Program this;
  location ← call (glGetUniformLocation (Program_handle p) name);
  mret (mkUniformSetter this location).

(** ** More of what a trace shows *)

(** The error codes [glGetErrorString] has a name for, and what one device
    check leaves in the trace when the device answers [e]. *)
Definition is_reported (e : GLenum) : bool :=
  (e =? GL_INVALID_ENUM) || (e =? GL_INVALID_VALUE)
  || (e =? GL_INVALID_OPERATION) || (e =? GL_OUT_OF_MEMORY).

Definition check_events (e : GLenum) : list Event :=
  mkEvent glGetError e
  :: (if is_reported e then [mkEvent debug_break 0] else []).

Definition after_check (w : World) : World :=
  mkWorld (allocator w) (heap w) (device w)
    (trace w ++ check_events (device w (trace w) glGetError)).

(** Requests to the allocator: instance, size, address returned. *)
Definition allocations (tr : list Event) : list (ptr * Z * ptr) :=
  omap (fun e => match ev_call e with
                 | allocate f size => Some (f, size, ev_ret e)
                 | _ => None
                 end) tr.

(** Storage given back: instance, address. *)
Definition frees (tr : list Event) : list (ptr * ptr) :=
  omap (fun e => match ev_call e with
                 | free f p => Some (f, p)
                 | _ => None
                 end) tr.

(** Diagnostic queries: buffer size and destination given to the device. *)
Definition info_logs (tr : list Event) : list (Z * ptr) :=
  omap (fun e => match ev_call e with
                 | glGetShaderInfoLog _ bufSize infoLog
                 | glGetProgramInfoLog _ bufSize infoLog =>
                     Some (bufSize, infoLog)
                 | _ => None
                 end) tr.

(** Everything asked of the device and of the allocator, apart from the
    error query and the trap of the device check. *)
Definition is_check_event (e : Event) : bool :=
  match ev_call e with
  | glGetError | debug_break => true
  | _ => false
  end.

Definition requests (tr : list Event) : list Call :=
  ev_call <$> List.filter (fun e => negb (is_check_event e)) tr.


(** The image upload of [Texture::make]. *)
Definition make_upload (w h : Z) (deviceFormat : TextureFormat.t)
    (desc : option TextureSourceData) : Call :=
  match desc with
  | Some desc =>
      glTexImage2D GL_TEXTURE_2D 0 (enum_cast deviceFormat) w h 0
        (enum_cast (sizedToBase (desc_format desc)))
        (enum_cast (desc_type desc)) (desc_data desc)
  | None =>
      glTexImage2D GL_TEXTURE_2D 0 (enum_cast deviceFormat) w h 0
        (enum_cast (sizedToBase deviceFormat)) GL_UNSIGNED_BYTE nullptr
  end.


(** The caller's array at [0x20] naming the two Buffers of
    [two_buffer_world], before any VertexArray is made. *)
Definition two_buffers_listed : World :=
  mkWorld default_allocator
    (<[0x100 := OBuffer buffer_a]>
       (<[0x200 := OBuffer buffer_b]>
          (<[0x20 := OPtrs [0x100; 0x200]]> ∅)))
    demo_device [].

(** A live Program at [0x800]. *)
Definition program_world : World :=
  mkWorld default_allocator (<[0x800 := OProgram (mkProgram 13)]> ∅)
    demo_device [].

(** *** What Program::make exchanges with the device *)

(** The events of a trace apart from those of the device check, with the
    answers they got. *)
Definition exchanges (tr : list Event) : list Event :=
  List.filter (fun e => negb (is_check_event e)) tr.

(** One [compile]: the shader name [s] the device handed out and the
    compile status [flag] it reported. *)
Definition compile_exchange (shaderType : GLenum) (s : handle_t)
    (source : StringView) (flag : Z) : list Event :=
  [mkEvent (glCreateShader shaderType) s;
   mkEvent (glShaderSource s 1 source (to_s32 (StringView_size source))) 0;
   mkEvent (glCompileShader s) 0;
   mkEvent (glGetShaderiv s GL_COMPILE_STATUS) flag].

(** The diagnostic query on a failure, answered with [errLen]: none when
    the caller's buffer is empty. *)
Definition log_exchange (query : Z -> ptr -> Call) (result : View.t)
    (errLen : Z) : list Event :=
  if View.empty result then []
  else [mkEvent (query (to_s32 (View.size result - 1)) (View.data result))
          errLen].

(** The caller's view after a failure. *)
Definition diagnostic_view (result : View.t) (errLen : Z) : View.t :=
  if View.empty result then result
  else View.mk (View.data result) (to_size_t errLen).

(** Linking the program [p] from the shaders [vs] and [fs], with the link
    status [flag] the device reported. *)
Definition link_exchange (p vs fs : handle_t) (flag : Z) : list Event :=
  [mkEvent glCreateProgram p;
   mkEvent (glAttachShader p vs) 0;
   mkEvent (glAttachShader p fs) 0;
   mkEvent (glDeleteShader vs) 0;
   mkEvent (glDeleteShader fs) 0;
   mkEvent (glLinkProgram p) 0;
   mkEvent (glGetProgramiv p GL_LINK_STATUS) flag].

(** ** Reasoning about runs *)

Lemma new_events_app (w w' : World) (evs : list Event) :
  trace w' = trace w ++ evs -> new_events w w' = evs.
Proof.
  intros H. unfold new_events. rewrite H. apply drop_app_length.
Qed.

Lemma bind_inv {A B} (m : M A) (k : A -> M B) (w : World) b w2 :
  (m ≫= k) w = Some (b, w2) ->
  exists a w1, m w = Some (a, w1) /\ k a w1 = Some (b, w2).
Proof.
  unfold mbind, M_bind. destruct (m w) as [[a w1]|] eqn:E; [|discriminate].
  intros H. now exists a, w1.
Qed.

(** ** The device check *)

Lemma MGL_OPENGL_CHECK_run (w : World) :
  exists w' evs,
    MGL_OPENGL_CHECK w = Some (tt, w')
    /\ trace w' = trace w ++ evs
    /\ heap w' = heap w
    /\ allocator w' = allocator w
    /\ device w' = device w
    /\ uploads evs = []
    /\ (exists r rest, evs = mkEvent glGetError r :: rest)
    /\ shaders_created evs = [] /\ shaders_deleted evs = [].
Proof.
  unfold MGL_OPENGL_CHECK, glGetErrorString, call, call_, mbind, M_bind,
    mret, M_ret.
  cbn.
  repeat match goal with
         | |- context [if ?b then _ else _] => destruct b
         end;
    cbn; do 2 eexists; split_and!; try reflexivity;
    try (cbn; rewrite <- app_assoc; reflexivity);
    try (do 2 eexists; reflexivity).
Qed.

(** ** View::fromObject *)

(** C7.  For every object, [View::fromObject (object)] is a view of
    [sizeof (object) / sizeof (float)] elements that starts at the object's
    own storage (nothing is copied: no call is made and the data pointer is
    the object's address); a 4x4 float matrix gives exactly 16 elements, a
    3-component float vector exactly 3, a 3x3 float matrix exactly 9. *)
Theorem fromObject_element_count (Object : CType) (object : ptr) :
  View.size (View.fromObject Object object) = sizeof Object / sizeof T_float
  /\ View.data (View.fromObject Object object) = object
  /\ View.size (View.fromObject T_glm_mat4 object) = 16
  /\ View.size (View.fromObject T_glm_vec3 object) = 3
  /\ View.size (View.fromObject T_glm_mat3 object) = 9.
Proof.
  unfold View.fromObject, View.size, View.data; cbn [View.len View.first].
  repeat split; reflexivity.
Qed.

(** ** sizedToBase *)

Lemma sizedToBase_base (format : TextureFormat.t) :
  is_sized (sizedToBase format) = false.
Proof. destruct format; reflexivity. Qed.

Lemma sizedToBase_fixes_base (format : TextureFormat.t) :
  is_sized format = false -> sizedToBase format = format.
Proof. destruct format; simpl; congruence. Qed.

(** C8.  [sizedToBase] is idempotent, every sized format goes to a base
    format with the same number of channels, and the table is the one the
    names announce: R variants to RED, RG variants to RG, RGB variants to
    RGB, RGBA variants to RGBA. *)
Theorem sizedToBase_idempotent_channels (format : TextureFormat.t) :
  sizedToBase (sizedToBase format) = sizedToBase format
  /\ channel_count (sizedToBase format) = channel_count format
  /\ is_sized (sizedToBase format) = false
  /\ (sizedToBase TextureFormat.R8u = TextureFormat.RED
      /\ sizedToBase TextureFormat.R32f = TextureFormat.RED
      /\ channel_count TextureFormat.RED = 1)
  /\ (sizedToBase TextureFormat.RG8u = TextureFormat.RG
      /\ sizedToBase TextureFormat.RG32f = TextureFormat.RG
      /\ channel_count TextureFormat.RG = 2)
  /\ (sizedToBase TextureFormat.RGB8u = TextureFormat.RGB
      /\ sizedToBase TextureFormat.RGB32f = TextureFormat.RGB
      /\ channel_count TextureFormat.RGB = 3)
  /\ (sizedToBase TextureFormat.RGBA8u = TextureFormat.RGBA
      /\ sizedToBase TextureFormat.RGBA32f = TextureFormat.RGBA
      /\ channel_count TextureFormat.RGBA = 4).
Proof.
  split; [|split; [|split]].
  - apply sizedToBase_fixes_base, sizedToBase_base.
  - destruct format; reflexivity.
  - apply sizedToBase_base.
  - repeat split.
Qed.

(** ** The Uniform family *)

(** The constant each primitive asserts is [primitive_arity]: with a view
    of that many elements the primitive makes its device call and nothing
    else; with any other view the assertion traps first. *)
Lemma set_uniform_checks_arity (P : Primitive) (p : ptr) (index : Z)
    (view : View.t) (w : World) :
  exists w', set_uniform_ P p index view w = Some (tt, w') /\
    trace w' = trace w ++
      (if View.size view =? primitive_arity P then [] else
         [mkEvent debug_break 0]) ++
      [mkEvent (primitive_call P index (View.data view)) 0].
Proof.
  destruct P; cbn [set_uniform_ primitive_arity primitive_call];
    match goal with
    | |- context [?f p index view w] => unfold f
    end;
    unfold MGL_ASSERT, mbind, M_bind, mret, M_ret, call_;
    match goal with
    | |- context [View.size view =? ?n] => destruct (View.size view =? n)
    end;
    cbn; eexists; (split; [reflexivity |]); cbn;
    rewrite <- ?app_assoc; reflexivity.
Qed.

(** C1.  For every supported semantic value type [T],
    [Uniform<T> (program, index, value)] is a call of the matching upload
    primitive on a view whose element count is the arity of [T], which is
    the constant that primitive asserts; so the run makes exactly the
    primitive's device call and no assertion traps. *)
Theorem Uniform_upload_arity (T : UniformType) (p : ptr) (index : Z)
    (value : ptr) :
  exists view : View.t,
    Uniform T p index value = set_uniform_ (spec_primitive T) p index view
    /\ View.size view = spec_arity T
    /\ primitive_arity (spec_primitive T) = spec_arity T
    /\ forall w : World, exists w' : World,
         Uniform T p index value w = Some (tt, w')
         /\ trace w' = trace w ++
              [mkEvent (primitive_call (spec_primitive T) index
                          (View.data view)) 0]
         /\ no_trap (new_events w w') = true.
Proof.
  assert (Hrun : forall view, View.size view = spec_arity T ->
            primitive_arity (spec_primitive T) = spec_arity T ->
            forall w, exists w',
              set_uniform_ (spec_primitive T) p index view w = Some (tt, w')
              /\ trace w' = trace w ++
                   [mkEvent (primitive_call (spec_primitive T) index
                               (View.data view)) 0]
              /\ no_trap (new_events w w') = true).
  { intros view Hsize Harity w.
    destruct (set_uniform_checks_arity (spec_primitive T) p index view w)
      as (w' & Hrun & Htrace).
    rewrite Hsize, Harity, Z.eqb_refl in Htrace. cbn [app] in Htrace.
    exists w'. split; [exact Hrun|]. split; [exact Htrace|].
    rewrite (new_events_app _ _ _ Htrace).
    destruct (spec_primitive T); reflexivity. }
  destruct T; cbn [Uniform spec_primitive set_uniform_ spec_arity] in *;
    unfold set_uniform_Sampler;
    eexists; (split; [reflexivity|]);
    (split; [reflexivity|]); (split; [reflexivity|]);
    apply Hrun; reflexivity.
Qed.

(** ** clear *)

(** What [clear] asks of the device, for every combination of the two
    flags. *)
Lemma clear_mask (r g b : float) (clearColour clearDepth : bool) (w : World) :
  exists w', clear r g b clearColour clearDepth w = Some (tt, w') /\
    trace w' = trace w ++
      [mkEvent (glClearColor r g b float_of_int_1) 0;
       mkEvent (glClear (if clearColour then GL_COLOR_BUFFER_BIT
                         else if clearDepth then GL_DEPTH_BUFFER_BIT
                         else 0)) 0].
Proof.
  unfold clear, mbind, M_bind, call_. cbn.
  eexists. split; [reflexivity|]. cbn. rewrite <- app_assoc. cbn.
  destruct clearColour, clearDepth; reflexivity.
Qed.

(** C3, at [clear (r, g, b, true, true)]: the flag word given to the device
    clear is the colour bit alone; the depth bit is not in it. *)
Theorem clear_both_flags_requests_colour_only (r g b : float) (w : World) :
  exists w', clear r g b true true w = Some (tt, w') /\
    clear_masks (new_events w w') = [GL_COLOR_BUFFER_BIT] /\
    has_bit GL_COLOR_BUFFER_BIT GL_COLOR_BUFFER_BIT = true /\
    has_bit GL_COLOR_BUFFER_BIT GL_DEPTH_BUFFER_BIT = false.
Proof.
  destruct (clear_mask r g b true true w) as (w' & Hrun & Htrace).
  exists w'. split; [exact Hrun|].
  rewrite (new_events_app _ _ _ Htrace). repeat split.
Qed.

(** ** Operations that leave the objects alone *)

Create HintDb frame discriminated.

Lemma preserves_ret {A} (a : A) : preserves_objects (mret a : M A).
Proof. intros w r w' H. injection H as _ <-. now split. Qed.

Lemma preserves_undefined {A} : preserves_objects (@undefined A).
Proof. intros w r w' H. discriminate. Qed.

Lemma preserves_bind {A B} (m : M A) (k : A -> M B) :
  preserves_objects m -> (forall a, preserves_objects (k a)) ->
  preserves_objects (m ≫= k).
Proof.
  intros Hm Hk w r w' H.
  apply bind_inv in H as (a & w1 & H1 & H2).
  destruct (Hm _ _ _ H1) as [Hh Ha], (Hk _ _ _ _ H2) as [Hh' Ha'].
  split; congruence.
Qed.

Lemma preserves_call (c : Call) : preserves_objects (call c).
Proof. intros w r w' H. injection H as _ <-. now split. Qed.

Lemma preserves_call_ (c : Call) : preserves_objects (call_ c).
Proof. intros w r w' H. injection H as _ <-. now split. Qed.

Lemma preserves_load (p : ptr) : preserves_objects (load p).
Proof.
  intros w r w' H. unfold load in H.
  destruct (heap w !! p); [|discriminate]. injection H as _ <-. now split.
Qed.

Lemma preserves_if {A} (b : bool) (m1 m2 : M A) :
  preserves_objects m1 -> preserves_objects m2 ->
  preserves_objects (if b then m1 else m2).
Proof. now destruct b. Qed.

#[local] Hint Resolve preserves_ret preserves_undefined preserves_call
  preserves_call_ preserves_load : frame.
#[local] Hint Extern 2 (preserves_objects (_ ≫= _)) =>
  apply preserves_bind; [|intros ?] : frame.
#[local] Hint Extern 2 (preserves_objects (if _ then _ else _)) =>
  apply preserves_if : frame.
#[local] Hint Extern 3 (preserves_objects (match ?x with _ => _ end)) =>
  destruct x : frame.

Ltac frame := repeat (progress (auto 20 with frame)).

Lemma preserves_MGL_OPENGL_CHECK : preserves_objects MGL_OPENGL_CHECK.
Proof. unfold MGL_OPENGL_CHECK, glGetErrorString. frame. Qed.

#[local] Hint Resolve preserves_MGL_OPENGL_CHECK : frame.

Lemma preserves_load_Buffer p : preserves_objects (load_Buffer p).
Proof. unfold load_Buffer. frame. Qed.
Lemma preserves_load_VertexArray p : preserves_objects (load_VertexArray p).
Proof. unfold load_VertexArray. frame. Qed.
Lemma preserves_load_Texture p : preserves_objects (load_Texture p).
Proof. unfold load_Texture. frame. Qed.
Lemma preserves_load_Program p : preserves_objects (load_Program p).
Proof. unfold load_Program. frame. Qed.

#[local] Hint Resolve preserves_load_Buffer preserves_load_VertexArray
  preserves_load_Texture preserves_load_Program : frame.

(** C10.  On [Buffer], [Texture], [Program] and [VertexArray], every
    operation other than [make] and destruction leaves the object store as
    it was: each object at each address keeps every field.  Only the device
    sees the operation. *)
Theorem operations_leave_fields_unchanged :
  (forall this, preserves_objects (Buffer_bind this))
  /\ (forall this data len offset,
        preserves_objects (Buffer_write this data len offset))
  /\ (forall this x y w h sourceDataType data,
        preserves_objects (Texture_write this x y w h sourceDataType data))
  /\ (forall this options, preserves_objects (Texture_setOptions this options))
  /\ (forall this, preserves_objects (Program_use this))
  /\ (forall this name, preserves_objects (Program_uniform this name))
  /\ (forall this, preserves_objects (VertexArray_bind this))
  /\ (forall this mode offset count,
        preserves_objects (VertexArray_draw this mode offset count))
  /\ (forall this, preserves_objects (VertexArray_getBuffers this)).
Proof.
  split_and!; intros;
    unfold Buffer_bind, Buffer_write, Texture_write, Texture_setOptions,
      Program_use, Program_uniform, VertexArray_bind, VertexArray_draw,
      VertexArray_getBuffers;
    frame.
Qed.

Lemma operations_leave_fields_unchanged_witness :
  heap (after (Buffer_write 0x100 0x700 12 0 two_buffer_world)
          two_buffer_world)
  = heap two_buffer_world
  /\ allocator (after (Buffer_write 0x100 0x700 12 0 two_buffer_world)
                  two_buffer_world)
     = allocator two_buffer_world.
Proof.
  destruct operations_leave_fields_unchanged as (_ & Hwrite & _).
  apply (Hwrite 0x100 0x700 12 0 two_buffer_world tt).
  vm_compute. reflexivity.
Defined.

(** On a live object each of these operations has a defined result. *)
Lemma operations_defined_on_live_objects (w : World) :
  (forall this b, heap w !! this = Some (OBuffer b) ->
     is_Some (Buffer_bind this w)
     /\ forall data len offset, is_Some (Buffer_write this data len offset w))
  /\ (forall this t, heap w !! this = Some (OTexture t) ->
        (forall x y w0 h sourceDataType data,
           is_Some (Texture_write this x y w0 h sourceDataType data w))
        /\ forall options, is_Some (Texture_setOptions this options w))
  /\ (forall this p, heap w !! this = Some (OProgram p) ->
        is_Some (Program_use this w)
        /\ forall name, is_Some (Program_uniform this name w))
  /\ (forall this v, heap w !! this = Some (OVertexArray v) ->
        is_Some (VertexArray_bind this w)
        /\ (forall mode offset count,
              is_Some (VertexArray_draw this mode offset count w))
        /\ is_Some (VertexArray_getBuffers this w)).
Proof.
  split_and!; intros this o Hthis; split_and?; intros;
    unfold Buffer_bind, Buffer_write, Texture_write, Texture_setOptions,
      Program_use, Program_uniform, VertexArray_bind, VertexArray_draw,
      VertexArray_getBuffers, load_Buffer, load_Texture, load_Program,
      load_VertexArray, load, call, call_, mbind, M_bind, mret, M_ret;
    rewrite Hthis; cbn;
    try match goal with
        | mode : DrawMode.t |- _ => destruct mode; cbn
        end;
    try match goal with
        | |- is_Some (MGL_OPENGL_CHECK ?w3) =>
            destruct (MGL_OPENGL_CHECK_run w3) as (w4 & evs & -> & _)
        end;
    eauto.
Qed.

(** ** Creation of a VertexArray *)

(** The copy loop fills the array of links from the caller's list. *)
Lemma copy_attached_run (vao : ptr) (v : VertexArray) (buffers : View.t)
    (ps : list ptr) :
  forall (k i : nat) (l : list ptr) (w : World),
    (i + k)%nat = length ps ->
    length l = length ps ->
    heap w !! vao = Some (OVertexArray v) ->
    heap w !! attachedBuffers v = Some (OPtrs l) ->
    heap w !! View.first buffers = Some (OPtrs ps) ->
    attachedBuffers v <> View.first buffers ->
    attachedBuffers v <> vao ->
    copy_attached vao buffers i k w =
      Some (tt, mkWorld (allocator w)
                  (<[attachedBuffers v := OPtrs (take i l ++ drop i ps)]>
                     (heap w))
                  (device w) (trace w)).
Proof.
  induction k as [|k IH]; intros i l w Hik Hlen Hvao Hlinks Hview Hne1 Hne2.
  - rewrite Nat.add_0_r in Hik.
    rewrite take_ge, drop_ge, app_nil_r by lia.
    rewrite insert_id by exact Hlinks. now destruct w.
  - destruct (lookup_lt_is_Some_2 ps i) as [b Hb]; [lia|].
    cbn [copy_attached].
    unfold View_index, store_attached, load_VertexArray, load_Ptrs, load,
      store, mbind, M_bind.
    rewrite Hview. cbn. rewrite Hb. cbn. rewrite Hvao. cbn.
    rewrite Hlinks. cbn.
    destruct (decide (i < length l)%nat) as [Hi|Hi]; [|lia].
    rewrite Hlinks.
    rewrite (IH (S i) (<[i := b]> l)); cbn; try lia; try assumption.
    + rewrite insert_insert_eq.
      rewrite (take_S_r _ i b) by now apply list_lookup_insert_eq.
      rewrite take_insert_ge by lia.
      rewrite (drop_S ps b i Hb), <- app_assoc. reflexivity.
    + rewrite length_insert. exact Hlen.
    + now rewrite lookup_insert_ne.
    + now rewrite lookup_insert_eq.
    + now rewrite lookup_insert_ne.
Qed.

Lemma place_inv (p : ptr) (o : Obj) (w w' : World) (r : unit) :
  place p o w = Some (r, w') ->
  p <> nullptr /\ heap w !! p = None
  /\ heap w' = <[p := o]> (heap w) /\ allocator w' = allocator w.
Proof.
  unfold place. destruct (p =? nullptr) eqn:Hp; [discriminate|].
  destruct (heap w !! p) eqn:Hfree; [discriminate|].
  intros [= _ <-]. apply Z.eqb_neq in Hp. now split_and!.
Qed.

Lemma preserves_allocator_allocate (size : Z) :
  preserves_objects (allocator_allocate size).
Proof.
  unfold allocator_allocate. apply preserves_bind.
  - intros w r w' [= _ <-]. now split.
  - intros a. frame.
Qed.

Lemma allocator_allocate_installed (size : Z) (w w' : World) (p : ptr) :
  allocator_allocate size w = Some (p, w') -> allocator w <> nullptr.
Proof.
  unfold allocator_allocate, get_allocator, mbind, M_bind, undefined. cbn.
  destruct (allocator w =? nullptr) eqn:Ha; [discriminate|].
  intros _. now apply Z.eqb_neq.
Qed.

(** The whole of what [VertexArray::make] leaves in the store. *)
Lemma VertexArray_make_run (buffers : View.t) (ps : list ptr)
    (callback : handle_t -> View.t -> M unit) (w w' : World) (vao : ptr) :
  heap w !! View.first buffers = Some (OPtrs ps) ->
  View.size buffers = Z.of_nat (length ps) ->
  (forall h, preserves_objects (callback h buffers)) ->
  VertexArray_make buffers callback w = Some (vao, w') ->
  exists v,
    heap w' !! vao = Some (OVertexArray v)
    /\ heap w' !! attachedBuffers v = Some (OPtrs ps)
    /\ attachedBufferCount v = Z.of_nat (length ps)
    /\ allocator w' = allocator w
    /\ (forall q o, heap w !! q = Some o -> heap w' !! q = Some o)
    /\ heap w !! vao = None
    /\ heap w !! attachedBuffers v = None
    /\ allocator w <> nullptr
    /\ vao <> nullptr.
Proof.
  intros Hview Hsize Hcb H. unfold VertexArray_make in H.
  apply bind_inv in H as (handle & w1 & H1 & H).
  apply preserves_call in H1 as [Hh1 Ha1].
  apply bind_inv in H as ([] & w2 & H2 & H).
  apply preserves_call_ in H2 as [Hh2 Ha2].
  apply bind_inv in H as ([] & w3 & H3 & H).
  apply preserves_MGL_OPENGL_CHECK in H3 as [Hh3 Ha3].
  apply bind_inv in H as ([] & w4 & H4 & H).
  apply Hcb in H4 as [Hh4 Ha4].
  apply bind_inv in H as ([] & w5 & H5 & H).
  apply preserves_MGL_OPENGL_CHECK in H5 as [Hh5 Ha5].
  apply bind_inv in H as (links & w6 & H6 & H).
  pose proof (allocator_allocate_installed _ _ _ _ H6) as Hinst.
  apply preserves_allocator_allocate in H6 as [Hh6 Ha6].
  apply bind_inv in H as ([] & w7 & H7 & H).
  apply place_inv in H7 as (Hl0 & Hlfree & Hh7 & Ha7).
  apply bind_inv in H as (vao' & w8 & H8 & H).
  unfold newObject in H8.
  apply bind_inv in H8 as (x & w8a & H8a & H8).
  apply preserves_allocator_allocate in H8a as [Hh8a Ha8a].
  apply bind_inv in H8 as ([] & w8b & H8b & H8).
  apply place_inv in H8b as (Hv0 & Hvfree & Hh8b & Ha8b).
  injection H8 as -> ->.
  assert (Hheap : heap w6 = heap w) by congruence.
  set (v := mkVertexArray handle links (View.size buffers)) in *.
  assert (Hne1 : links <> View.first buffers).
  { intros ->. rewrite Hheap in Hlfree. congruence. }
  assert (Hne2 : links <> vao').
  { intros ->. rewrite Hh8a, Hh7, lookup_insert_eq in Hvfree. discriminate. }
  assert (Hne3 : vao' <> View.first buffers).
  { intros ->. rewrite Hh8a, Hh7, lookup_insert_ne, Hheap in Hvfree by done.
    congruence. }
  assert (Hheap8 : heap w8 =
            <[vao' := OVertexArray v]>
              (<[links := OPtrs (replicate (Z.to_nat (View.size buffers))
                                  nullptr)]> (heap w))) by congruence.
  apply bind_inv in H as ([] & w9 & H9 & H).
  injection H as <- <-.
  rewrite (copy_attached_run vao' v buffers ps _ 0%nat
             (replicate (Z.to_nat (View.size buffers)) nullptr)) in H9.
  - injection H9 as <-. cbn. rewrite Hheap8. exists v. split_and!.
    + rewrite lookup_insert_ne by done. now rewrite lookup_insert_eq.
    + now rewrite lookup_insert_eq.
    + exact Hsize.
    + congruence.
    + intros q o Hq.
      assert (q <> links).
      { intros ->. rewrite Hheap in Hlfree.
        pose proof (eq_trans (eq_sym Hq) Hlfree). discriminate. }
      assert (q <> vao').
      { intros ->. rewrite Hh8a, Hh7, lookup_insert_ne, Hheap in Hvfree by done.
        pose proof (eq_trans (eq_sym Hq) Hvfree). discriminate. }
      now rewrite !lookup_insert_ne by done.
    + rewrite Hh8a, Hh7, lookup_insert_ne, Hheap in Hvfree by done.
      exact Hvfree.
    + cbn. rewrite <- Hheap. exact Hlfree.
    + congruence.
    + exact Hv0.
  - rewrite Hsize, Nat2Z.id. reflexivity.
  - rewrite length_replicate, Hsize, Nat2Z.id. reflexivity.
  - rewrite Hheap8. now rewrite lookup_insert_eq.
  - rewrite Hheap8. cbn. rewrite lookup_insert_ne by done.
    now rewrite lookup_insert_eq.
  - rewrite Hheap8. rewrite !lookup_insert_ne by done. exact Hview.
  - exact Hne1.
  - exact Hne2.
Qed.

(** [VertexArray::make] returns a VertexArray whose array of links holds
    the caller's list, whatever configuration callback it is given, as long
    as the callback leaves the objects alone; what was in the store is still
    there. *)
Lemma VertexArray_make_owns (buffers : View.t) (ps : list ptr)
    (callback : handle_t -> View.t -> M unit) (w w' : World) (vao : ptr) :
  heap w !! View.first buffers = Some (OPtrs ps) ->
  View.size buffers = Z.of_nat (length ps) ->
  (forall h, preserves_objects (callback h buffers)) ->
  VertexArray_make buffers callback w = Some (vao, w') ->
  exists v,
    heap w' !! vao = Some (OVertexArray v)
    /\ heap w' !! attachedBuffers v = Some (OPtrs ps)
    /\ attachedBufferCount v = Z.of_nat (length ps)
    /\ allocator w' = allocator w
    /\ forall q o, heap w !! q = Some o -> heap w' !! q = Some o.
Proof.
  intros Hview Hsize Hcb H.
  destruct (VertexArray_make_run buffers ps callback w w' vao Hview Hsize
              Hcb H) as (v & H1 & H2 & H3 & H4 & H5 & _).
  exists v. now split_and!.
Qed.

(** ** Destruction of a VertexArray *)

Lemma buffer_destroys_app (tr1 tr2 : list Event) :
  buffer_destroys (tr1 ++ tr2) = (buffer_destroys tr1 + buffer_destroys tr2)%nat.
Proof.
  unfold buffer_destroys. now rewrite List.filter_app, length_app.
Qed.

Lemma buffer_destroys_map (bs : list Buffer) :
  buffer_destroys (map destroy_event bs) = length bs.
Proof.
  unfold buffer_destroys. induction bs as [|b bs IH]; [reflexivity|].
  cbn. now rewrite IH.
Qed.

(** One turn of the destructor's loop: the element is read, the buffer it
    names is destroyed. *)
Lemma destroy_attached_step (view : View.t) (ps : list ptr) (i n : nat)
    (p : ptr) (b : Buffer) (w : World) :
  heap w !! View.first view = Some (OPtrs ps) ->
  ps !! i = Some p ->
  heap w !! p = Some (OBuffer b) ->
  destroy_attached view i (S n) w =
  destroy_attached view (S i) n
    (mkWorld (allocator w) (<[p := ORaw]> (heap w)) (device w)
             (trace w ++ [destroy_event b])).
Proof.
  intros Hview Hi Hp.
  cbn [destroy_attached].
  unfold View_index, load_Ptrs, load, mbind, M_bind.
  rewrite Hview. cbn. rewrite Hi. cbn.
  unfold Buffer_dtor, load_Buffer, load, store, call_, mbind, M_bind.
  rewrite Hp. cbn. rewrite Hp. reflexivity.
Qed.

Lemma destroy_attached_run (view : View.t) (ps : list ptr) :
  forall (rest : list ptr) (bs : list Buffer) (i : nat) (w : World),
    heap w !! View.first view = Some (OPtrs ps) ->
    drop i ps = rest ->
    NoDup rest ->
    Forall2 (fun p b => heap w !! p = Some (OBuffer b)) rest bs ->
    exists w',
      destroy_attached view i (length rest) w = Some (tt, w')
      /\ trace w' = trace w ++ map destroy_event bs
      /\ allocator w' = allocator w
      /\ (forall q, q ∉ rest -> heap w' !! q = heap w !! q)
      /\ (forall q, q ∈ rest -> heap w' !! q = Some ORaw).
Proof.
  induction rest as [|p rest IH]; intros bs i w Hview Hdrop Hnodup Hlive.
  - apply Forall2_nil_inv_l in Hlive as ->.
    exists w. cbn. rewrite app_nil_r. split_and!; try done.
    intros q Hq. now apply elem_of_nil in Hq.
  - apply Forall2_cons_inv_l in Hlive as (b & bs' & Hp & Hlive & ->).
    apply NoDup_cons in Hnodup as [Hfresh Hnodup].
    assert (Hi : ps !! i = Some p).
    { rewrite <- (Nat.add_0_r i), <- lookup_drop, Hdrop. reflexivity. }
    assert (Hdrop' : drop (S i) ps = rest).
    { rewrite <- Nat.add_1_r, <- drop_drop, Hdrop. reflexivity. }
    assert (Hne : View.first view <> p) by congruence.
    cbn [length].
    rewrite (destroy_attached_step view ps i (length rest) p b w Hview Hi Hp).
    set (w1 := mkWorld _ _ _ _).
    destruct (IH bs' (S i) w1) as (w' & Hrun & Htrace & Halloc & Hout & Hin).
    + cbn. now rewrite lookup_insert_ne.
    + exact Hdrop'.
    + exact Hnodup.
    + apply Forall2_same_length_lookup.
      split; [eapply Forall2_length, Hlive|].
      intros k q b' Hk Hb'. cbn.
      rewrite lookup_insert_ne.
      * exact (Forall2_lookup_lr _ _ _ _ _ _ Hlive Hk Hb').
      * intros ->. apply Hfresh. eapply list_elem_of_lookup_2, Hk.
    + exists w'. split_and!.
      * exact Hrun.
      * rewrite Htrace. cbn. now rewrite <- app_assoc.
      * rewrite Halloc. reflexivity.
      * intros q Hq. apply not_elem_of_cons in Hq as [Hqp Hq].
        rewrite (Hout q Hq). cbn. now rewrite lookup_insert_ne.
      * intros q Hq. apply elem_of_cons in Hq as [->|Hq].
        -- rewrite (Hout p Hfresh). cbn. now rewrite lookup_insert_eq.
        -- now apply Hin.
Qed.

(** The whole run of the destructor: what the device and the allocator
    see, and what is left in the store. *)
Lemma VertexArray_dtor_run (this : ptr) (v : VertexArray)
    (ps : list ptr) (bs : list Buffer) (w : World) :
  allocator w <> nullptr ->
  heap w !! this = Some (OVertexArray v) ->
  heap w !! attachedBuffers v = Some (OPtrs ps) ->
  attachedBufferCount v = Z.of_nat (length ps) ->
  NoDup ps ->
  Forall2 (fun p b => heap w !! p = Some (OBuffer b)) ps bs ->
  exists w',
    VertexArray_dtor this w = Some (tt, w')
    /\ trace w' = trace w ++
         [mkEvent (glDeleteVertexArrays 1 (VertexArray_handle v)) 0]
         ++ map destroy_event bs
         ++ [mkEvent (free (allocator w) (attachedBuffers v)) 0]
    /\ (forall p, p ∈ ps -> heap w' !! p = Some ORaw)
    /\ heap w' !! this = Some ORaw
    /\ heap w' !! attachedBuffers v = None.
Proof.
  intros Hinst Hthis Hlinks Hcount Hnodup Hlive.
  set (w0 := mkWorld (allocator w) (heap w) (device w)
               (trace w ++
                [mkEvent (glDeleteVertexArrays 1 (VertexArray_handle v)) 0])).
  set (view := View.mk (attachedBuffers v) (attachedBufferCount v)).
  destruct (destroy_attached_run view ps ps bs 0%nat w0)
    as (w1 & Hrun & Htrace & Halloc & Hout & Hin);
    [exact Hlinks | reflexivity | exact Hnodup | exact Hlive |].
  assert (Hown : forall p, p ∈ ps -> exists b, heap w !! p = Some (OBuffer b)).
  { intros p Hp. apply list_elem_of_lookup in Hp as [k Hk].
    destruct (Forall2_lookup_l _ _ _ _ _ Hlive Hk) as (b & _ & Hb). eauto. }
  assert (Hthis_out : this ∉ ps).
  { intros Hp. destruct (Hown _ Hp). congruence. }
  assert (Hne : attachedBuffers v <> this) by congruence.
  assert (Hinst' : (allocator w1 =? nullptr) = false).
  { rewrite Halloc. cbn. now apply Z.eqb_neq. }
  eexists. split_and!.
  - unfold VertexArray_dtor, VertexArray_getBuffers, load_VertexArray, load,
      mbind, M_bind, call_.
    rewrite Hthis. cbn. rewrite Hthis. cbn.
    unfold View.size; cbn [View.len]. rewrite Hcount, Nat2Z.id.
    fold w0. unfold view in Hrun. rewrite Hcount in Hrun. rewrite Hrun.
    unfold allocator_free, get_allocator, release, store, call_, mbind, M_bind.
    rewrite Hinst'. cbn.
    rewrite lookup_delete_ne by exact Hne.
    rewrite (Hout this Hthis_out). cbn. rewrite Hthis. reflexivity.
  - cbn. rewrite Htrace, Halloc. cbn. now rewrite <- !app_assoc.
  - intros p Hp. cbn.
    destruct (Hown _ Hp) as [b Hb].
    rewrite lookup_insert_ne by congruence.
    rewrite lookup_delete_ne by congruence.
    now apply Hin.
  - cbn. now rewrite lookup_insert_eq.
  - cbn. rewrite lookup_insert_ne by congruence. now rewrite lookup_delete_eq.
Qed.

(** C4.  The destructor of a VertexArray that owns [N] attached Buffers
    first releases the device vertex-array handle, then destroys the [N]
    Buffers in the order they are attached (one buffer-destroy each,
    exactly [N] in all: none for an empty list), and only then gives the
    ownership-link storage back to the allocator. *)
Theorem VertexArray_dtor_order (this : ptr) (v : VertexArray)
    (ps : list ptr) (bs : list Buffer) (w : World) :
  allocator w <> nullptr ->
  heap w !! this = Some (OVertexArray v) ->
  heap w !! attachedBuffers v = Some (OPtrs ps) ->
  attachedBufferCount v = Z.of_nat (length ps) ->
  NoDup ps ->
  Forall2 (fun p b => heap w !! p = Some (OBuffer b)) ps bs ->
  exists w',
    VertexArray_dtor this w = Some (tt, w')
    /\ new_events w w' =
         [mkEvent (glDeleteVertexArrays 1 (VertexArray_handle v)) 0]
         ++ map destroy_event bs
         ++ [mkEvent (free (allocator w) (attachedBuffers v)) 0]
    /\ buffer_destroys (new_events w w') = length ps.
Proof.
  intros Hinst Hthis Hlinks Hcount Hnodup Hlive.
  destruct (VertexArray_dtor_run this v ps bs w Hinst Hthis Hlinks Hcount
              Hnodup Hlive) as (w' & Hrun & Htrace & _).
  exists w'. split; [exact Hrun|].
  rewrite (new_events_app _ _ _ Htrace). split; [reflexivity|].
  rewrite !buffer_destroys_app, buffer_destroys_map.
  cbn. rewrite <- (Forall2_length _ _ _ Hlive). lia.
Qed.

Lemma VertexArray_dtor_order_witness :
  exists w',
    VertexArray_dtor 0x400 two_buffer_world = Some (tt, w')
    /\ new_events two_buffer_world w' =
         [mkEvent (glDeleteVertexArrays 1 3) 0]
         ++ map destroy_event [buffer_a; buffer_b]
         ++ [mkEvent (free default_allocator 0x300) 0]
    /\ buffer_destroys (new_events two_buffer_world w') = 2%nat.
Proof.
  apply (VertexArray_dtor_order 0x400 vertex_array_ab [0x100; 0x200]
           [buffer_a; buffer_b] two_buffer_world).
  - vm_compute. discriminate.
  - reflexivity.
  - reflexivity.
  - reflexivity.
  - apply (bool_decide_unpack _). vm_compute. exact I.
  - repeat constructor.
Defined.

(** [VertexArray::make] on an empty list, then destruction: no
    buffer-destroy at all; on two Buffers: exactly two, between the release
    of the vertex-array handle and the free of the link storage. *)
Example make_empty_then_destroy :
  buffer_destroys <$> trace_of (make_then_destroy 0 installed_world)
  = Some 0%nat.
Proof. vm_compute. reflexivity. Qed.

Example make_two_then_destroy :
  (fun tr => drop 16 tr) <$> calls_of (make_then_destroy 2 installed_world)
  = Some [glDeleteVertexArrays 1 11; glDeleteBuffers 1 1;
          glDeleteBuffers 1 6; free default_allocator 0x1F00].
Proof. vm_compute. reflexivity. Qed.

(** ** Ownership of storage *)

(** X15.  The destructor of a VertexArray gives one piece of storage back,
    the array of links.  Each attached Buffer has had its destructor run, and
    its storage is still held. *)
Lemma VertexArray_dtor_keeps_buffer_storage (this : ptr) (v : VertexArray)
    (ps : list ptr) (bs : list Buffer) (w : World) :
  allocator w <> nullptr ->
  heap w !! this = Some (OVertexArray v) ->
  heap w !! attachedBuffers v = Some (OPtrs ps) ->
  attachedBufferCount v = Z.of_nat (length ps) ->
  NoDup ps ->
  Forall2 (fun p b => heap w !! p = Some (OBuffer b)) ps bs ->
  exists w',
    VertexArray_dtor this w = Some (tt, w')
    /\ freed_by (allocator w) (new_events w w') = [attachedBuffers v]
    /\ forall p, p ∈ ps -> heap w' !! p = Some ORaw.
Proof.
  intros Hinst Hthis Hlinks Hcount Hnodup Hlive.
  destruct (VertexArray_dtor_run this v ps bs w Hinst Hthis Hlinks Hcount
              Hnodup Hlive) as (w' & Hrun & Htrace & Hps & _).
  exists w'. split; [exact Hrun|]. split; [|exact Hps].
  rewrite (new_events_app _ _ _ Htrace).
  unfold freed_by. cbn. rewrite omap_app. cbn. rewrite Z.eqb_refl.
  replace (omap _ (map destroy_event bs)) with (@nil ptr); [reflexivity|].
  clear. induction bs as [|b bs IH]; [reflexivity|exact IH].
Qed.

(** C5, on the vertex array of [example.cc]: three pieces of storage come
    from the installed allocator (the Buffer at [0x1600], the array of
    links, the VertexArray); deleting the VertexArray gives the last two
    back through that allocator.  The Buffer's destructor has run (its
    device buffer is deleted, no object lives in the cell), and its storage
    never goes back. *)
Theorem VertexArray_destruction_keeps_buffer_storage :
  result_of (vertex_array_lifecycle demo_world) = Some (0x1600, 0x2000)
  /\ allocated_by default_allocator
       <$> trace_of (vertex_array_lifecycle demo_world)
     = Some [0x1600; 0x1F00; 0x2000]
  /\ freed_by default_allocator
       <$> trace_of (vertex_array_lifecycle demo_world)
     = Some [0x1F00; 0x2000]
  /\ never_freed default_allocator
       <$> trace_of (vertex_array_lifecycle demo_world)
     = Some [0x1600]
  /\ buffer_destroys <$> trace_of (vertex_array_lifecycle demo_world)
     = Some 1%nat
  /\ heap (after (vertex_array_lifecycle demo_world) demo_world) !! 0x1600
     = Some ORaw.
Proof. vm_compute. repeat split. Qed.

(** ** Program::make *)

(** The lambda [compile], on any device: it creates one shader; when it
    returns that shader's name it has deleted nothing, and when it has
    deleted the shader it returns 0. *)
Ltac step_check H :=
  match type of H with
  | context [MGL_OPENGL_CHECK ?w0] =>
      let w1 := fresh "w" in
      let evs := fresh "evs" in
      let Hc := fresh "Hcheck" in
      let Ht := fresh "Htrace" in
      let Hcr := fresh "Hcreated" in
      let Hdl := fresh "Hdeleted" in
      destruct (MGL_OPENGL_CHECK_run w0)
        as (w1 & evs & Hc & Ht & _ & _ & _ & _ & _ & Hcr & Hdl);
      rewrite Hc in H; cbn in Ht
  end.

Lemma compile_shaders (source : StringView) (shaderType : GLenum)
    (result result' : View.t) (s : handle_t) (w w' : World) :
  compile source shaderType result w = Some ((s, result'), w') ->
  exists evs s0,
    trace w' = trace w ++ evs
    /\ shaders_created evs = [s0]
    /\ ((s = s0 /\ shaders_deleted evs = [])
        \/ (s = 0 /\ shaders_deleted evs = [s0])).
Proof.
  intros H.
  unfold compile, call, call_, mbind, M_bind, mret, M_ret in H. cbn in H.
  step_check H.
  destruct (_ =? GL_FALSE) in H.
  - destruct (negb (View.empty result)) in H; cbn in H;
      step_check H; injection H as <- <- <-;
      eexists _, _; (split; [rewrite Htrace0; cbn; rewrite Htrace;
                             rewrite <- !app_assoc; reflexivity|]);
      unfold shaders_created, shaders_deleted in *;
      rewrite !omap_app, ?Hcreated, ?Hcreated0, ?Hdeleted, ?Hdeleted0;
      cbn; (split; [reflexivity|]); right; split; reflexivity.
  - cbn in H. step_check H. injection H as <- <- <-.
    eexists _, _. split.
    + rewrite Htrace0; cbn; rewrite Htrace; rewrite <- !app_assoc; reflexivity.
    + unfold shaders_created, shaders_deleted in *.
      rewrite !omap_app, ?Hcreated, ?Hcreated0, ?Hdeleted, ?Hdeleted0.
      cbn. split; [reflexivity|]. left. split; reflexivity.
Qed.

(** X24.  On any device: when the vertex stage compiles and the fragment
    stage does not, [Program::make] returns null straight after the second
    [compile]; the only shader deleted, if any, is the one the second
    [compile] created. *)
Lemma Program_make_fragment_failure
    (vertexShaderSource fragShaderSource : StringView)
    (result r1 r2 : View.t) (vs : handle_t) (w w1 w2 : World) :
  compile vertexShaderSource GL_VERTEX_SHADER result w = Some ((vs, r1), w1) ->
  vs <> 0 ->
  compile fragShaderSource GL_FRAGMENT_SHADER r1 w1 = Some ((0, r2), w2) ->
  Program_make vertexShaderSource fragShaderSource result w
    = Some ((nullptr, r2), w2)
  /\ exists evs fs0,
       trace w2 = trace w ++ evs
       /\ shaders_created evs = [vs; fs0]
       /\ (shaders_deleted evs = [fs0] \/ shaders_deleted evs = []).
Proof.
  intros Hvs Hnz Hfs. split.
  - unfold Program_make, mbind, M_bind. rewrite Hvs. cbn.
    apply Z.eqb_neq in Hnz. rewrite Hnz. rewrite Hfs. reflexivity.
  - apply compile_shaders in Hvs as (e1 & s1 & Ht1 & Hc1 & Hd1).
    apply compile_shaders in Hfs as (e2 & s2 & Ht2 & Hc2 & Hd2).
    exists (e1 ++ e2), s2. split; [|split].
    + rewrite Ht2, Ht1. now rewrite app_assoc.
    + unfold shaders_created in *. rewrite omap_app, Hc1, Hc2.
      destruct Hd1 as [[-> _]|[-> _]]; [reflexivity|contradiction].
    + unfold shaders_deleted in *. rewrite omap_app.
      destruct Hd1 as [[_ ->]|[-> _]]; [|contradiction].
      destruct Hd2 as [[_ ->]|[_ ->]]; [right|left]; reflexivity.
Qed.

(** C2, when the vertex stage compiles and the fragment stage does not:
    [Program::make] returns null, having deleted the fragment shader it
    created; the vertex shader it created is never deleted. *)
Theorem Program_make_fragment_failure_keeps_vertex_shader :
  result_of (Program_make vertex_ok fragment_bad error_buffer installed_world)
  = Some (nullptr, View.mk 0x500 24)
  /\ shaders_created
       <$> trace_of (Program_make vertex_ok fragment_bad error_buffer
                       installed_world)
     = Some [1; 7]
  /\ shaders_deleted
       <$> trace_of (Program_make vertex_ok fragment_bad error_buffer
                       installed_world)
     = Some [7]
  /\ shaders_leaked
       <$> trace_of (Program_make vertex_ok fragment_bad error_buffer
                       installed_world)
     = Some [1].
Proof. vm_compute. repeat split. Qed.

(** The other paths, on the same device: a vertex-stage failure and a link
    failure return null with nothing left behind; success returns a
    Program. *)
Example Program_make_vertex_failure :
  result_of (Program_make fragment_bad fragment_ok error_buffer installed_world)
  = Some (nullptr, View.mk 0x500 24)
  /\ shaders_leaked
       <$> trace_of (Program_make fragment_bad fragment_ok error_buffer
                       installed_world)
     = Some [].
Proof. vm_compute. repeat split. Qed.

Example Program_make_link_failure :
  result_of (Program_make vertex_ok fragment_ok error_buffer link_fail_world)
  = Some (nullptr, View.mk 0x500 24)
  /\ shaders_leaked
       <$> trace_of (Program_make vertex_ok fragment_ok error_buffer
                       link_fail_world)
     = Some []
  /\ programs_leaked
       <$> trace_of (Program_make vertex_ok fragment_ok error_buffer
                       link_fail_world)
     = Some [].
Proof. vm_compute. repeat split. Qed.

Example Program_make_success :
  result_of (Program_make vertex_ok fragment_ok error_buffer installed_world)
  = Some (0x2600, error_buffer)
  /\ heap (after (Program_make vertex_ok fragment_ok error_buffer
                    installed_world) installed_world) !! 0x2600
     = Some (OProgram (mkProgram 13)).
Proof. vm_compute. repeat split. Qed.

(** ** Texture::make *)

(** C6, as the code has it.  Whenever [Texture::make] is given a source
    descriptor, the one image upload it makes takes its source format from
    the descriptor, reduced to its base shape by [sizedToBase], and its
    element type from the descriptor; the device storage format given to
    [make] is the upload's internal format. *)
Theorem Texture_make_upload_source (w h : Z) (deviceFormat : TextureFormat.t)
    (desc : TextureSourceData) (world world' : World) (p : ptr) :
  Texture_make w h deviceFormat (Some desc) world = Some (p, world') ->
  uploads (new_events world world') =
    [glTexImage2D GL_TEXTURE_2D 0 (enum_cast deviceFormat) w h 0
       (enum_cast (sizedToBase (desc_format desc)))
       (enum_cast (desc_type desc)) (desc_data desc)].
Proof.
  intros H.
  unfold Texture_make, call, call_, mbind, M_bind in H. cbn in H.
  match type of H with
  | context [MGL_OPENGL_CHECK ?w3] =>
      destruct (MGL_OPENGL_CHECK_run w3)
        as (w4 & evs & Hcheck & Htrace & _ & _ & _ & Hup & _);
      rewrite Hcheck in H
  end.
  cbn in Htrace.
  unfold newObject, allocator_allocate, get_allocator, place, call,
    mbind, M_bind, mret, M_ret, undefined in H.
  cbn in H.
  destruct (allocator w4 =? nullptr); [discriminate|].
  cbn in H.
  destruct (device w4 (trace w4) (allocate (allocator w4) sizeof_Texture)
            =? nullptr); [discriminate|].
  destruct (heap w4 !! _); [discriminate|].
  injection H as _ <-.
  erewrite new_events_app.
  2:{ cbn. rewrite Htrace. rewrite <- !app_assoc. reflexivity. }
  unfold uploads in *. cbn. rewrite omap_app, Hup. reflexivity.
Qed.

Lemma Texture_make_upload_source_witness :
  uploads (new_events installed_world
             (after (Texture_make 1 1 TextureFormat.RGBA8u (Some bgra_source)
                       installed_world) installed_world)) =
    [glTexImage2D GL_TEXTURE_2D 0 GL_RGBA8 1 1 0 GL_BGRA GL_UNSIGNED_BYTE
       0x600].
Proof.
  apply (Texture_make_upload_source 1 1 TextureFormat.RGBA8u bgra_source
           installed_world _ 0x1500).
  vm_compute. reflexivity.
Defined.

(** C6 as the specification words it does not hold: an RGBA8 texture made
    from BGRA bytes is uploaded with source format [GL_BGRA], which is not
    the base shape [GL_RGBA] of the device storage format. *)
Lemma Texture_make_upload_format_counterexample :
  exists (p : ptr) (world' : World) (c : Call),
    Texture_make 1 1 TextureFormat.RGBA8u (Some bgra_source) installed_world
      = Some (p, world')
    /\ c ∈ uploads (new_events installed_world world')
    /\ upload_format c = Some GL_BGRA
    /\ upload_format c
       <> Some (enum_cast (sizedToBase TextureFormat.RGBA8u)).
Proof.
  eexists _, _, _. split; [vm_compute; reflexivity|].
  split; [vm_compute; apply list_elem_of_here|].
  split; [reflexivity|]. vm_compute. discriminate.
Qed.

(** Without a descriptor the source format is the base shape of the device
    storage format. *)
Example Texture_make_without_source :
  uploads <$> trace_of (Texture_make 4 4 TextureFormat.RGB32f None
                          installed_world)
  = Some [glTexImage2D GL_TEXTURE_2D 0 GL_RGB32F 4 4 0 GL_RGB
            GL_UNSIGNED_BYTE nullptr].
Proof. vm_compute. reflexivity. Qed.

(** ** Sampler *)

Lemma Sampler_bind_run (this : ptr) (s : Sampler) (h : handle_t) (w : World) :
  heap w !! this = Some (OSampler s) ->
  bound_handle w s = Some h ->
  exists w' evs,
    Sampler_bind this w = Some (tt, w')
    /\ new_events w w' =
         [mkEvent (glActiveTexture (to_u32 (GL_TEXTURE0 + Sampler_index s))) 0;
          mkEvent (glBindTexture GL_TEXTURE_2D h) 0] ++ evs
    /\ heap w' = heap w.
Proof.
  intros Hthis Hbound. unfold bound_handle in Hbound.
  unfold Sampler_bind, load_Sampler, load_Texture, load, call_, mbind, M_bind,
    mret, M_ret.
  rewrite Hthis. cbn.
  destruct (Sampler_texture s =? nullptr) eqn:Hnull; cbn.
  - injection Hbound as <-.
    match goal with
    | |- context [MGL_OPENGL_CHECK ?w3] =>
        destruct (MGL_OPENGL_CHECK_run w3)
          as (w4 & evs & Hcheck & Htrace & Hheap & _)
    end.
    exists w4, evs. split; [exact Hcheck|]. split; [|exact Hheap].
    apply new_events_app. rewrite Htrace. cbn. now rewrite <- !app_assoc.
  - destruct (heap w !! Sampler_texture s) as [[| |t| | | |]|];
      try discriminate.
    injection Hbound as <-. cbn.
    match goal with
    | |- context [MGL_OPENGL_CHECK ?w3] =>
        destruct (MGL_OPENGL_CHECK_run w3)
          as (w4 & evs & Hcheck & Htrace & Hheap & _)
    end.
    exists w4, evs. split; [exact Hcheck|]. split; [|exact Hheap].
    apply new_events_app. rewrite Htrace. cbn. now rewrite <- !app_assoc.
Qed.

(** The constructor sets the slot index and leaves [texture] as the storage
    had it; [setTexture] sets [texture] and leaves the index. *)
Lemma Sampler_ctor_run (this : ptr) (storage : Sampler) (slotIndex : Z)
    (w : World) :
  heap w !! this = Some (OSampler storage) ->
  exists w',
    Sampler_ctor this slotIndex w = Some (tt, w')
    /\ heap w' !! this =
         Some (OSampler (mkSampler slotIndex (Sampler_texture storage)))
    /\ trace w' = trace w.
Proof.
  intros Hthis.
  unfold Sampler_ctor, load_Sampler, load, store, mbind, M_bind.
  rewrite Hthis. cbn. rewrite Hthis.
  eexists. split; [reflexivity|]. cbn. now rewrite lookup_insert_eq.
Qed.

Lemma Sampler_setTexture_run (this : ptr) (s : Sampler) (texture : ptr)
    (w : World) :
  heap w !! this = Some (OSampler s) ->
  exists w',
    Sampler_setTexture this texture w = Some (tt, w')
    /\ heap w' !! this = Some (OSampler (mkSampler (Sampler_index s) texture))
    /\ trace w' = trace w.
Proof.
  intros Hthis.
  unfold Sampler_setTexture, load_Sampler, load, store, mbind, M_bind.
  rewrite Hthis. cbn. rewrite Hthis.
  eexists. split; [reflexivity|]. cbn. now rewrite lookup_insert_eq.
Qed.

(** C9, for a Sampler on which [setTexture] was never called: constructed
    with slot 3 in storage that held the address of a live Texture of
    handle 7, [bind] activates unit 3 and binds handle 7, not the null
    handle; in storage that held an address where nothing lives, [bind]
    reads through it and has no defined result. *)
Theorem Sampler_bind_before_setTexture :
  calls_of ((Sampler_ctor 0x40 3;; Sampler_bind 0x40) stale_sampler_world)
  = Some [glActiveTexture (GL_TEXTURE0 + 3); glBindTexture GL_TEXTURE_2D 7;
          glGetError]
  /\ calls_of ((Sampler_ctor 0x40 3;; Sampler_bind 0x40)
                 dangling_sampler_world)
     = None.
Proof. vm_compute. split; reflexivity. Qed.

(** Once [setTexture (nullptr)] or [setTexture] of a live Texture has been
    called, [bind] does what is expected of it. *)
Example Sampler_bind_after_setTexture :
  calls_of ((Sampler_ctor 0x40 3;; Sampler_setTexture 0x40 nullptr;;
             Sampler_bind 0x40) stale_sampler_world)
  = Some [glActiveTexture (GL_TEXTURE0 + 3); glBindTexture GL_TEXTURE_2D 0;
          glGetError].
Proof. vm_compute. reflexivity. Qed.

(** * Further properties of the library *)

(** ** Exact runs of the building blocks *)

Lemma MGL_OPENGL_CHECK_eq (w : World) :
  MGL_OPENGL_CHECK w = Some (tt, after_check w).
Proof.
  unfold MGL_OPENGL_CHECK, glGetErrorString, after_check, check_events,
    is_reported, call, call_, mbind, M_bind, mret, M_ret.
  cbn.
  repeat match goal with
         | |- context [?a =? ?b] => destruct (a =? b)
         end;
    cbn; rewrite <- ?app_assoc; reflexivity.
Qed.

Lemma requests_app (tr1 tr2 : list Event) :
  requests (tr1 ++ tr2) = requests tr1 ++ requests tr2.
Proof.
  unfold requests. now rewrite List.filter_app, fmap_app.
Qed.

Lemma requests_check (e : GLenum) : requests (check_events e) = [].
Proof. unfold check_events. now destruct (is_reported e). Qed.

Lemma omap_check_events {A} (f : Event -> option A) (e : GLenum) :
  (forall r, f (mkEvent glGetError r) = None) ->
  (forall r, f (mkEvent debug_break r) = None) ->
  omap f (check_events e) = [].
Proof.
  intros Hg Hd. unfold check_events. cbn. rewrite Hg.
  destruct (is_reported e); cbn; now rewrite ?Hd.
Qed.

Lemma newObject_inv (sizeof_T : Z) (object : Obj) (w w' : World) (p : ptr) :
  newObject sizeof_T object w = Some (p, w') ->
  allocator w <> nullptr
  /\ p = device w (trace w) (allocate (allocator w) sizeof_T)
  /\ p <> nullptr
  /\ heap w !! p = None
  /\ w' = mkWorld (allocator w) (<[p := object]> (heap w)) (device w)
            (trace w ++ [mkEvent (allocate (allocator w) sizeof_T) p]).
Proof.
  unfold newObject, allocator_allocate, get_allocator, place, call,
    mbind, M_bind, mret, M_ret, undefined.
  cbn. destruct (allocator w =? nullptr) eqn:Ha; [discriminate|]. cbn.
  set (q := device w (trace w) (allocate (allocator w) sizeof_T)).
  destruct (q =? nullptr) eqn:Hq; [cbn; discriminate|].
  destruct (heap w !! (q : ptr)) eqn:Hfree; [cbn; discriminate|].
  cbn. intros [= <- <-]. apply Z.eqb_neq in Ha, Hq. now split_and!.
Qed.

(** ** The enumeration tables *)

(** X1.  Each [enum_cast] sends distinct enumerators to distinct device
    constants, and none to [GL_INVALID_ENUM]. *)
Theorem enum_cast_injective :
  (forall a b : DataType.t, enum_cast a = enum_cast b -> a = b)
  /\ (forall a b : BufferType.t, enum_cast a = enum_cast b -> a = b)
  /\ (forall a b : DrawMode.t, enum_cast a = enum_cast b -> a = b)
  /\ (forall a b : TextureFormat.t, enum_cast a = enum_cast b -> a = b)
  /\ (forall a b : TextureFilterMode.t, enum_cast a = enum_cast b -> a = b)
  /\ (forall a b : TextureWrapMode.t, enum_cast a = enum_cast b -> a = b)
  /\ (forall a : DataType.t, enum_cast a <> GL_INVALID_ENUM)
  /\ (forall a : BufferType.t, enum_cast a <> GL_INVALID_ENUM)
  /\ (forall a : DrawMode.t, enum_cast a <> GL_INVALID_ENUM)
  /\ (forall a : TextureFormat.t, enum_cast a <> GL_INVALID_ENUM)
  /\ (forall a : TextureFilterMode.t, enum_cast a <> GL_INVALID_ENUM)
  /\ (forall a : TextureWrapMode.t, enum_cast a <> GL_INVALID_ENUM).
Proof.
  assert (Hne : forall a b : Z, (a =? b) = false -> a <> b)
    by (intros a b H; now apply Z.eqb_neq).
  split_and!.
  1-6: intros [] []; first [reflexivity | intros H; exfalso; revert H;
                            apply Hne; vm_compute; reflexivity].
  all: intros []; apply Hne; vm_compute; reflexivity.
Qed.

Lemma enum_cast_injective_witness :
  TextureFormat.RGBA8u = TextureFormat.RGBA8u.
Proof.
  destruct enum_cast_injective as (_ & _ & _ & H & _).
  apply H. reflexivity.
Defined.

(** ** The device check and the assertions *)

(** X2.  One device check asks the device for its error once.  It traps
    exactly when the answer is one of the four codes [glGetErrorString]
    names; any other answer, zero or not, passes unnoticed.  The objects are
    left alone. *)
Theorem MGL_OPENGL_CHECK_traps_on_named_errors (w : World) :
  exists w',
    MGL_OPENGL_CHECK w = Some (tt, w')
    /\ new_events w w' = check_events (device w (trace w) glGetError)
    /\ no_trap (new_events w w')
       = negb (is_reported (device w (trace w) glGetError))
    /\ heap w' = heap w
    /\ (forall e, is_reported e = true <->
                  e = GL_INVALID_ENUM \/ e = GL_INVALID_VALUE
                  \/ e = GL_INVALID_OPERATION \/ e = GL_OUT_OF_MEMORY).
Proof.
  exists (after_check w). split; [apply MGL_OPENGL_CHECK_eq|].
  assert (Hnew : new_events w (after_check w)
                 = check_events (device w (trace w) glGetError))
    by now apply new_events_app.
  rewrite Hnew. split_and!; try reflexivity.
  - unfold check_events. now destruct (is_reported _).
  - intros e. unfold is_reported.
    rewrite !orb_true_iff, !Z.eqb_eq. tauto.
Qed.

(** X3.  An upload primitive traps exactly when the view it is given has
    another element count than its arity; either way its last act is the
    device upload of one value from the view's data pointer. *)
Theorem set_uniform_traps_iff_mismatch (P : Primitive) (p : ptr) (index : Z)
    (view : View.t) (w : World) :
  exists w',
    set_uniform_ P p index view w = Some (tt, w')
    /\ no_trap (new_events w w') = (View.size view =? primitive_arity P)
    /\ last (new_events w w')
       = Some (mkEvent (primitive_call P index (View.data view)) 0)
    /\ heap w' = heap w.
Proof.
  destruct (set_uniform_checks_arity P p index view w) as (w' & Hrun & Htrace).
  exists w'. split; [exact Hrun|].
  rewrite (new_events_app _ _ _ Htrace).
  split_and!.
  - destruct (View.size view =? primitive_arity P), P; reflexivity.
  - now rewrite last_app.
  - revert Hrun. clear.
    assert (Hp : preserves_objects (set_uniform_ P p index view)).
    { destruct P; cbn [set_uniform_];
        match goal with
        | |- preserves_objects (?f p index view) => unfold f
        end; unfold MGL_ASSERT; frame. }
    intros Hrun. apply (Hp _ _ _ Hrun).
Qed.

(** X4.  [clear] sets the clear colour with alpha 1 and then clears once.
    The colour bit is requested exactly when [clearColour] is set; the depth
    bit exactly when [clearDepth] is set and [clearColour] is not. *)
Theorem clear_requests (r g b : float) (clearColour clearDepth : bool)
    (w : World) :
  exists w' mask,
    clear r g b clearColour clearDepth w = Some (tt, w')
    /\ new_events w w' = [mkEvent (glClearColor r g b float_of_int_1) 0;
                          mkEvent (glClear mask) 0]
    /\ has_bit mask GL_COLOR_BUFFER_BIT = clearColour
    /\ has_bit mask GL_DEPTH_BUFFER_BIT = negb clearColour && clearDepth
    /\ heap w' = heap w.
Proof.
  destruct (clear_mask r g b clearColour clearDepth w) as (w' & Hrun & Htrace).
  exists w'. eexists. split; [exact Hrun|].
  split; [apply new_events_app, Htrace|].
  split_and!.
  - now destruct clearColour, clearDepth.
  - now destruct clearColour, clearDepth.
  - assert (Hp : preserves_objects (clear r g b clearColour clearDepth))
      by (unfold clear; frame).
    apply (Hp _ _ _ Hrun).
Qed.

(** ** StringView *)

Lemma stringLength_loop_spec (s rest : list Z) (len : Z) :
  Forall (fun c => c <> 0) s ->
  0 <= len -> len + Z.of_nat (length s) < 2 ^ 64 ->
  stringLength_loop (s ++ 0 :: rest) len = Some (len + Z.of_nat (length s)).
Proof.
  revert len. induction s as [|c s IH]; intros len Hs Hlen Hbound.
  - cbn. f_equal. lia.
  - apply Forall_cons in Hs as [Hc Hs].
    cbn [app stringLength_loop]. apply Z.eqb_neq in Hc. rewrite Hc.
    cbn [length] in Hbound.
    assert (Hwrap : to_size_t (len + 1) = len + 1).
    { unfold to_size_t. apply Z.mod_small. lia. }
    rewrite Hwrap, IH; [f_equal; cbn [length]; lia | exact Hs | lia | lia].
Qed.

Lemma stringLength_loop_unterminated (s : list Z) (len : Z) :
  Forall (fun c => c <> 0) s -> stringLength_loop s len = None.
Proof.
  revert len. induction s as [|c s IH]; intros len Hs; [reflexivity|].
  apply Forall_cons in Hs as [Hc Hs]. cbn.
  apply Z.eqb_neq in Hc. rewrite Hc. now apply IH.
Qed.

(** X5.  A StringView made from a C string views the characters before the
    first terminator, whatever follows it; it converts to [true] exactly
    when there is at least one.  A null string gives the empty view.  An
    array that holds no terminator gives no defined length. *)
Theorem StringView_of_C_string (string : ptr) (s rest : list Z) :
  Forall (fun c => c <> 0) s ->
  Z.of_nat (length s) < 2 ^ 64 ->
  StringView_ctor string (Some (s ++ 0 :: rest))
    = Some (View.mk string (Z.of_nat (length s)))
  /\ StringView_bool (View.mk string (Z.of_nat (length s)))
     = negb (bool_decide (s = []))
  /\ StringView_ctor nullptr None = Some (View.mk nullptr 0)
  /\ StringView_bool (View.mk nullptr 0) = false
  /\ StringView_ctor string (Some s) = None.
Proof.
  intros Hs Hbound. unfold StringView_ctor, stringLength.
  rewrite stringLength_loop_spec by (try done; lia).
  rewrite stringLength_loop_unterminated by exact Hs.
  split_and!; try reflexivity.
  destruct s; reflexivity.
Qed.

Lemma StringView_of_C_string_witness :
  StringView_ctor 0x700 (Some ([109; 97; 116] ++ 0 :: [120; 0]))
    = Some (View.mk 0x700 3).
Proof.
  refine (proj1 (StringView_of_C_string 0x700 [109; 97; 116] [120; 0] _ _)).
  - repeat constructor; discriminate.
  - vm_compute. reflexivity.
Defined.

(** ** Buffer *)

Lemma Buffer_make_inv (type : BufferType.t) (size : Z) (data : ptr)
    (dynamic : bool) (w w' : World) (p : ptr) :
  Buffer_make type size data dynamic w = Some (p, w') ->
  exists e,
    allocator w <> nullptr /\ p <> nullptr /\ heap w !! p = None
    /\ w' = mkWorld (allocator w)
              (<[p := OBuffer (mkBuffer (device w (trace w) (glGenBuffers 1))
                                 size type)]> (heap w))
              (device w)
              (trace w ++
               [mkEvent (glGenBuffers 1) (device w (trace w) (glGenBuffers 1));
                mkEvent (glBindBuffer (enum_cast type)
                           (device w (trace w) (glGenBuffers 1))) 0;
                mkEvent (glBufferData (enum_cast type) size data
                           (if dynamic then GL_DYNAMIC_DRAW
                            else GL_STATIC_DRAW)) 0]
               ++ check_events e
               ++ [mkEvent (allocate (allocator w) sizeof_Buffer) p]).
Proof.
  intros H.
  unfold Buffer_make, call, call_, mbind, M_bind in H. cbn in H.
  rewrite MGL_OPENGL_CHECK_eq in H.
  apply newObject_inv in H as (Ha & _ & Hp & Hfree & ->).
  cbn in *. eexists. split_and!; try done.
  f_equal. now rewrite <- !app_assoc.
Qed.






Lemma deleteObject_Buffer_run (this : ptr) (b : Buffer) (w : World) :
  this <> nullptr -> allocator w <> nullptr ->
  heap w !! this = Some (OBuffer b) ->
  deleteObject Buffer_dtor this w =
    Some (tt, mkWorld (allocator w) (delete this (heap w)) (device w)
                (trace w ++ [mkEvent (glDeleteBuffers 1 (Buffer_handle b)) 0;
                             mkEvent (free (allocator w) this) 0])).
Proof.
  intros Hp Ha Hthis. apply Z.eqb_neq in Ha, Hp.
  unfold deleteObject, Buffer_dtor, allocator_free, get_allocator, release,
    load_Buffer, load, store, call_, mbind, M_bind.
  rewrite Hp. cbn. rewrite Hthis. cbn. rewrite Hthis. cbn. rewrite Ha. cbn.
  now rewrite delete_insert_eq, <- !app_assoc.
Qed.

(** X8.  [deleteObject] on a Buffer that [make] returned deletes the device
    buffer [make] obtained and gives the Buffer's storage back through the
    allocator it came from: nothing allocated is left unfreed, and the
    object store is as it was before [make]. *)
Theorem Buffer_make_then_deleteObject (type : BufferType.t) (size : Z)
    (data : ptr) (dynamic : bool) (w w1 : World) (p : ptr) :
  Buffer_make type size data dynamic w = Some (p, w1) ->
  exists w2,
    deleteObject Buffer_dtor p w1 = Some (tt, w2)
    /\ new_events w1 w2 =
         [mkEvent (glDeleteBuffers 1 (device w (trace w) (glGenBuffers 1))) 0;
          mkEvent (free (allocator w) p) 0]
    /\ never_freed (allocator w) (new_events w w2) = []
    /\ heap w2 = heap w.
Proof.
  intros H.
  apply Buffer_make_inv in H as (e & Ha & Hp & Hfree & ->).
  set (w1 := mkWorld _ _ _ _).
  assert (Hlive : heap w1 !! p = Some (OBuffer
            (mkBuffer (device w (trace w) (glGenBuffers 1)) size type)))
    by (cbn; now rewrite lookup_insert_eq).
  eexists. split; [apply (deleteObject_Buffer_run p _ w1 Hp Ha Hlive)|].
  split_and!.
  - now apply new_events_app.
  - erewrite new_events_app.
    2:{ unfold w1. cbn [trace]. rewrite <- !app_assoc. reflexivity. }
    unfold never_freed, allocated_by, freed_by.
    rewrite !omap_app, !omap_check_events by done.
    cbn. rewrite ?Z.eqb_refl. cbn. unfold not_among. cbn.
    now rewrite ?Z.eqb_refl.
  - cbn. now apply delete_insert_id.
Qed.

Lemma Buffer_make_then_deleteObject_witness :
  exists w2,
    deleteObject Buffer_dtor 0x1500
      (after (Buffer_make BufferType.Array 4096 nullptr true installed_world)
         installed_world) = Some (tt, w2)
    /\ new_events
         (after (Buffer_make BufferType.Array 4096 nullptr true
                   installed_world) installed_world) w2
       = [mkEvent (glDeleteBuffers 1 1) 0;
          mkEvent (free default_allocator 0x1500) 0]
    /\ never_freed default_allocator (new_events installed_world w2) = []
    /\ heap w2 = ∅.
Proof.
  apply (Buffer_make_then_deleteObject BufferType.Array 4096 nullptr true
           installed_world _ 0x1500).
  vm_compute. reflexivity.
Defined.

(** ** Texture *)

Lemma Texture_make_inv (w h : Z) (deviceFormat : TextureFormat.t)
    (desc : option TextureSourceData) (world world' : World) (p : ptr) :
  Texture_make w h deviceFormat desc world = Some (p, world') ->
  exists e,
    allocator world <> nullptr /\ p <> nullptr /\ heap world !! p = None
    /\ world' = mkWorld (allocator world)
                  (<[p := OTexture
                            (mkTexture
                               (device world (trace world) (glGenTextures 1))
                               deviceFormat)]> (heap world))
                  (device world)
                  (trace world ++
                   [mkEvent (glGenTextures 1)
                      (device world (trace world) (glGenTextures 1));
                    mkEvent (glBindTexture GL_TEXTURE_2D
                               (device world (trace world) (glGenTextures 1)))
                      0;
                    mkEvent (make_upload w h deviceFormat desc) 0]
                   ++ check_events e
                   ++ [mkEvent (allocate (allocator world) sizeof_Texture) p]).
Proof.
  intros H.
  unfold Texture_make, call, call_, mbind, M_bind in H.
  destruct desc as [desc|]; cbn in H;
    rewrite MGL_OPENGL_CHECK_eq in H;
    apply newObject_inv in H as (Ha & _ & Hp & Hfree & ->);
    cbn in *; eexists; split_and!; try done;
    f_equal; now rewrite <- !app_assoc.
Qed.

(** X9.  [Texture::make] asks the device for one texture name, binds it,
    and uploads one image whose internal format is the device format it was
    given and whose source format is never a sized format: the base shape
    of the descriptor's format, or of the device format when there is no
    descriptor (then with byte elements and no pixels).  The Texture it
    returns is new and records the name and the device format. *)
Theorem Texture_make_postcondition (w h : Z) (deviceFormat : TextureFormat.t)
    (desc : option TextureSourceData) (world world' : World) (p : ptr) :
  Texture_make w h deviceFormat desc world = Some (p, world') ->
  let handle := device world (trace world) (glGenTextures 1) in
  exists (source : TextureFormat.t) (type : GLenum) (pixels : ptr),
    requests (new_events world world') =
      [glGenTextures 1;
       glBindTexture GL_TEXTURE_2D handle;
       glTexImage2D GL_TEXTURE_2D 0 (enum_cast deviceFormat) w h 0
         (enum_cast source) type pixels;
       allocate (allocator world) sizeof_Texture]
    /\ is_sized source = false
    /\ source = sizedToBase (from_option desc_format deviceFormat desc)
    /\ (desc = None -> type = GL_UNSIGNED_BYTE /\ pixels = nullptr)
    /\ p <> nullptr
    /\ heap world !! p = None
    /\ heap world' = <[p := OTexture (mkTexture handle deviceFormat)]>
                       (heap world).
Proof.
  intros H handle.
  apply Texture_make_inv in H as (e & Ha & Hp & Hfree & ->).
  erewrite new_events_app by reflexivity.
  rewrite !requests_app, requests_check.
  destruct desc as [desc|]; cbn [make_upload];
    eexists _, _, _; split_and!; try done;
    try apply sizedToBase_base; discriminate.
Qed.

Lemma Texture_make_postcondition_witness :
  exists (source : TextureFormat.t) (type : GLenum) (pixels : ptr),
    requests (new_events installed_world
                (after (Texture_make 4 4 TextureFormat.RGB32f None
                          installed_world) installed_world)) =
      [glGenTextures 1;
       glBindTexture GL_TEXTURE_2D 1;
       glTexImage2D GL_TEXTURE_2D 0 GL_RGB32F 4 4 0
         (enum_cast source) type pixels;
       allocate default_allocator sizeof_Texture]
    /\ is_sized source = false
    /\ source = TextureFormat.RGB
    /\ (@None TextureSourceData = None ->
        type = GL_UNSIGNED_BYTE /\ pixels = nullptr)
    /\ 0x1500 <> nullptr
    /\ heap installed_world !! 0x1500 = None
    /\ heap (after (Texture_make 4 4 TextureFormat.RGB32f None
                      installed_world) installed_world)
       = <[0x1500 := OTexture (mkTexture 1 TextureFormat.RGB32f)]> ∅.
Proof.
  apply (Texture_make_postcondition 4 4 TextureFormat.RGB32f None
           installed_world _ 0x1500).
  vm_compute. reflexivity.
Defined.




Lemma deleteObject_Texture_run (this : ptr) (t : Texture) (w : World) :
  this <> nullptr -> allocator w <> nullptr ->
  heap w !! this = Some (OTexture t) ->
  exists e,
    deleteObject Texture_dtor this w =
      Some (tt, mkWorld (allocator w) (delete this (heap w)) (device w)
                  (trace w
                   ++ [mkEvent (glDeleteTextures 1 (Texture_handle t)) 0]
                   ++ check_events e
                   ++ [mkEvent (free (allocator w) this) 0])).
Proof.
  intros Hp Ha Hthis. apply Z.eqb_neq in Ha, Hp.
  unfold deleteObject, Texture_dtor, allocator_free, get_allocator, release,
    load_Texture, load, store, call_, mbind, M_bind.
  rewrite Hp. cbn. rewrite Hthis. cbn. rewrite MGL_OPENGL_CHECK_eq.
  unfold after_check. cbn. rewrite Hthis. cbn. rewrite Ha. cbn.
  eexists. now rewrite delete_insert_eq, <- !app_assoc.
Qed.

(** X11.  [deleteObject] on a Texture that [make] returned deletes the
    device texture [make] obtained and gives the storage back through the
    allocator it came from; the object store is as it was before [make]. *)
Theorem Texture_make_then_deleteObject (w h : Z)
    (deviceFormat : TextureFormat.t) (desc : option TextureSourceData)
    (world world1 : World) (p : ptr) :
  Texture_make w h deviceFormat desc world = Some (p, world1) ->
  exists world2,
    deleteObject Texture_dtor p world1 = Some (tt, world2)
    /\ requests (new_events world1 world2) =
         [glDeleteTextures 1 (device world (trace world) (glGenTextures 1));
          free (allocator world) p]
    /\ never_freed (allocator world) (new_events world world2) = []
    /\ heap world2 = heap world.
Proof.
  intros H.
  apply Texture_make_inv in H as (e & Ha & Hp & Hfree & ->).
  set (world1 := mkWorld _ _ _ _).
  assert (Hlive : heap world1 !! p = Some (OTexture
            (mkTexture (device world (trace world) (glGenTextures 1))
               deviceFormat)))
    by (cbn; now rewrite lookup_insert_eq).
  destruct (deleteObject_Texture_run p _ world1 Hp Ha Hlive) as [e' Hrun].
  eexists. split; [exact Hrun|]. split_and!.
  - erewrite new_events_app by reflexivity.
    rewrite !requests_app, requests_check. reflexivity.
  - erewrite new_events_app.
    2:{ unfold world1. cbn [trace]. rewrite <- !app_assoc. reflexivity. }
    unfold never_freed, allocated_by, freed_by.
    rewrite !omap_app, !omap_check_events by done.
    destruct desc; cbn; rewrite ?Z.eqb_refl; cbn; unfold not_among; cbn;
      now rewrite ?Z.eqb_refl.
  - cbn. now apply delete_insert_id.
Qed.

Lemma Texture_make_then_deleteObject_witness :
  exists world2,
    deleteObject Texture_dtor 0x1500
      (after (Texture_make 4 4 TextureFormat.RGB32f None installed_world)
         installed_world) = Some (tt, world2)
    /\ requests (new_events
         (after (Texture_make 4 4 TextureFormat.RGB32f None installed_world)
            installed_world) world2)
       = [glDeleteTextures 1 1; free default_allocator 0x1500]
    /\ never_freed default_allocator (new_events installed_world world2) = []
    /\ heap world2 = ∅.
Proof.
  apply (Texture_make_then_deleteObject 4 4 TextureFormat.RGB32f None
           installed_world _ 0x1500).
  vm_compute. reflexivity.
Defined.

(** ** Before init *)

(** X12.  With no allocator installed, [Buffer::make], [Texture::make] and
    [VertexArray::make] have no defined result: each reaches for storage
    through the null [allocator]. *)
Theorem make_before_init_undefined (w : World) :
  allocator w = nullptr ->
  (forall type size data dynamic, Buffer_make type size data dynamic w = None)
  /\ (forall width height deviceFormat desc,
        Texture_make width height deviceFormat desc w = None)
  /\ (forall buffers callback,
        (forall h, preserves_objects (callback h buffers)) ->
        VertexArray_make buffers callback w = None).
Proof.
  intros Hnull. split_and!.
  - intros type size data dynamic.
    destruct (Buffer_make type size data dynamic w) as [[p w']|] eqn:E;
      [|reflexivity].
    apply Buffer_make_inv in E as (e & Ha & _). contradiction.
  - intros width height deviceFormat desc.
    destruct (Texture_make width height deviceFormat desc w) as [[p w']|] eqn:E;
      [|reflexivity].
    apply Texture_make_inv in E as (e & Ha & _). contradiction.
  - intros buffers callback Hcb.
    destruct (VertexArray_make buffers callback w) as [[p w']|] eqn:H;
      [|reflexivity].
    exfalso. unfold VertexArray_make in H.
    apply bind_inv in H as (handle & w1 & H1 & H).
    apply preserves_call in H1 as [_ Ha1].
    apply bind_inv in H as ([] & w2 & H2 & H).
    apply preserves_call_ in H2 as [_ Ha2].
    apply bind_inv in H as ([] & w3 & H3 & H).
    apply preserves_MGL_OPENGL_CHECK in H3 as [_ Ha3].
    apply bind_inv in H as ([] & w4 & H4 & H).
    apply Hcb in H4 as [_ Ha4].
    apply bind_inv in H as ([] & w5 & H5 & H).
    apply preserves_MGL_OPENGL_CHECK in H5 as [_ Ha5].
    apply bind_inv in H as (links & w6 & H6 & H).
    apply allocator_allocate_installed in H6. congruence.
Qed.

Lemma make_before_init_undefined_witness :
  Buffer_make BufferType.Array 4096 nullptr true demo_world = None.
Proof.
  refine (proj1 (make_before_init_undefined demo_world _) _ _ _ _).
  reflexivity.
Defined.

(** ** VertexArray: what make hands over, and what destruction needs *)

(** X13.  The VertexArray that [make] returns has its own copy of the
    caller's list: [getBuffers] is a view of as many elements, over storage
    that did not exist before, and element [i] of it is element [i] of the
    caller's list. *)
Theorem VertexArray_make_getBuffers (buffers : View.t) (ps : list ptr)
    (callback : handle_t -> View.t -> M unit) (w w' : World) (vao : ptr) :
  heap w !! View.first buffers = Some (OPtrs ps) ->
  View.size buffers = Z.of_nat (length ps) ->
  (forall h, preserves_objects (callback h buffers)) ->
  VertexArray_make buffers callback w = Some (vao, w') ->
  exists view,
    VertexArray_getBuffers vao w' = Some (view, w')
    /\ View.size view = Z.of_nat (length ps)
    /\ View.first view <> View.first buffers
    /\ heap w !! View.first view = None
    /\ forall i, View_index view i w' = (fun p => (p, w')) <$> ps !! i.
Proof.
  intros Hview Hsize Hcb H.
  destruct (VertexArray_make_run buffers ps callback w w' vao Hview Hsize
              Hcb H)
    as (v & Hvao & Hlinks & Hcount & _ & _ & _ & Hfresh & _).
  exists (View.mk (attachedBuffers v) (attachedBufferCount v)).
  split_and!.
  - unfold VertexArray_getBuffers, load_VertexArray, load, mbind, M_bind.
    now rewrite Hvao.
  - exact Hcount.
  - cbn. intros Heq. rewrite Heq in Hfresh.
    pose proof (eq_trans (eq_sym Hview) Hfresh). discriminate.
  - exact Hfresh.
  - intros i. unfold View_index, load_Ptrs, load, mbind, M_bind. cbn.
    rewrite Hlinks. cbn. now destruct (ps !! i).
Qed.

Lemma VertexArray_make_getBuffers_witness :
  exists view,
    VertexArray_getBuffers 0x1600
      (after (VertexArray_make (View.mk 0x20 2) no_callback two_buffers_listed)
         two_buffers_listed)
    = Some (view,
            after (VertexArray_make (View.mk 0x20 2) no_callback
                     two_buffers_listed) two_buffers_listed)
    /\ View.size view = 2
    /\ View.first view <> 0x20
    /\ heap two_buffers_listed !! View.first view = None
    /\ forall i,
         View_index view i
           (after (VertexArray_make (View.mk 0x20 2) no_callback
                     two_buffers_listed) two_buffers_listed)
         = (fun p => (p, after (VertexArray_make (View.mk 0x20 2) no_callback
                                  two_buffers_listed) two_buffers_listed))
           <$> [0x100; 0x200] !! i.
Proof.
  apply (VertexArray_make_getBuffers (View.mk 0x20 2) [0x100; 0x200]
           no_callback two_buffers_listed).
  - reflexivity.
  - reflexivity.
  - intros h. apply preserves_ret.
  - vm_compute. reflexivity.
Defined.

(** X14.  A VertexArray made from a list of distinct live Buffers and then
    destroyed: the destructor is defined, releases the vertex-array name
    [make] obtained, destroys the Buffers in the order of the caller's list,
    and frees the copy of the list; every Buffer of the list ends
    destroyed. *)
Theorem VertexArray_make_then_destroy (buffers : View.t) (ps : list ptr)
    (bs : list Buffer) (callback : handle_t -> View.t -> M unit)
    (w w1 : World) (vao : ptr) :
  heap w !! View.first buffers = Some (OPtrs ps) ->
  View.size buffers = Z.of_nat (length ps) ->
  NoDup ps ->
  Forall2 (fun p b => heap w !! p = Some (OBuffer b)) ps bs ->
  (forall h, preserves_objects (callback h buffers)) ->
  VertexArray_make buffers callback w = Some (vao, w1) ->
  exists w2 handle links,
    VertexArray_dtor vao w1 = Some (tt, w2)
    /\ new_events w1 w2 =
         [mkEvent (glDeleteVertexArrays 1 handle) 0]
         ++ map destroy_event bs
         ++ [mkEvent (free (allocator w) links) 0]
    /\ heap w1 !! vao = Some (OVertexArray
                               (mkVertexArray handle links
                                  (Z.of_nat (length ps))))
    /\ (forall p, p ∈ ps -> heap w2 !! p = Some ORaw)
    /\ heap w2 !! links = None.
Proof.
  intros Hview Hsize Hnodup Hlive Hcb H.
  destruct (VertexArray_make_run buffers ps callback w w1 vao Hview Hsize
              Hcb H)
    as (v & Hvao & Hlinks & Hcount & Halloc & Hframe & _ & _ & Hinst & _).
  assert (Hlive1 : Forall2 (fun p b => heap w1 !! p = Some (OBuffer b)) ps bs).
  { eapply Forall2_impl; [exact Hlive|]. intros p b. apply Hframe. }
  assert (Hinst1 : allocator w1 <> nullptr) by congruence.
  destruct (VertexArray_dtor_run vao v ps bs w1 Hinst1 Hvao Hlinks Hcount
              Hnodup Hlive1) as (w2 & Hrun & Htrace & Hps & _ & Hgone).
  exists w2, (VertexArray_handle v), (attachedBuffers v).
  split_and!.
  - exact Hrun.
  - rewrite <- Halloc. now apply new_events_app.
  - rewrite Hvao, <- Hcount. now destruct v.
  - exact Hps.
  - exact Hgone.
Qed.

Lemma VertexArray_make_then_destroy_witness :
  exists w2 handle links,
    VertexArray_dtor 0x1600
      (after (VertexArray_make (View.mk 0x20 2) no_callback two_buffers_listed)
         two_buffers_listed) = Some (tt, w2)
    /\ new_events
         (after (VertexArray_make (View.mk 0x20 2) no_callback
                   two_buffers_listed) two_buffers_listed) w2 =
         [mkEvent (glDeleteVertexArrays 1 handle) 0]
         ++ map destroy_event [buffer_a; buffer_b]
         ++ [mkEvent (free default_allocator links) 0]
    /\ heap (after (VertexArray_make (View.mk 0x20 2) no_callback
                      two_buffers_listed) two_buffers_listed) !! 0x1600
       = Some (OVertexArray (mkVertexArray handle links 2))
    /\ (forall p, p ∈ [0x100; 0x200] -> heap w2 !! p = Some ORaw)
    /\ heap w2 !! links = None.
Proof.
  apply (VertexArray_make_then_destroy (View.mk 0x20 2) [0x100; 0x200]
           [buffer_a; buffer_b] no_callback two_buffers_listed).
  - reflexivity.
  - reflexivity.
  - apply (bool_decide_unpack _). vm_compute. exact I.
  - repeat constructor.
  - intros h. apply preserves_ret.
  - vm_compute. reflexivity.
Defined.

Lemma VertexArray_dtor_keeps_buffer_storage_witness :
  exists w',
    VertexArray_dtor 0x400 two_buffer_world = Some (tt, w')
    /\ freed_by default_allocator (new_events two_buffer_world w') = [0x300]
    /\ forall p, p ∈ [0x100; 0x200] -> heap w' !! p = Some ORaw.
Proof.
  apply (VertexArray_dtor_keeps_buffer_storage 0x400 vertex_array_ab
           [0x100; 0x200] [buffer_a; buffer_b] two_buffer_world).
  - vm_compute. discriminate.
  - reflexivity.
  - reflexivity.
  - reflexivity.
  - apply (bool_decide_unpack _). vm_compute. exact I.
  - repeat constructor.
Defined.




(** ** Sampler: setTexture, then bind *)

(** X17.  Whatever the Sampler's storage held, after [setTexture] of a null
    pointer or of a live Texture, [bind] activates the unit of the
    Sampler's slot index, which [setTexture] has not changed, and binds the
    null handle or that Texture's handle. *)
Theorem Sampler_setTexture_then_bind (this : ptr) (s : Sampler)
    (texture : ptr) (h : handle_t) (w : World) :
  heap w !! this = Some (OSampler s) ->
  bound_handle w (mkSampler (Sampler_index s) texture) = Some h ->
  exists w',
    (Sampler_setTexture this texture;; Sampler_bind this) w = Some (tt, w')
    /\ requests (new_events w w') =
         [glActiveTexture (to_u32 (GL_TEXTURE0 + Sampler_index s));
          glBindTexture GL_TEXTURE_2D h]
    /\ heap w' !! this = Some (OSampler (mkSampler (Sampler_index s) texture))
    /\ (texture = nullptr -> h = 0).
Proof.
  intros Hthis Hbound.
  assert (Hne : texture <> nullptr -> texture <> this).
  { intros Hnz ->. unfold bound_handle in Hbound. cbn in Hbound.
    apply Z.eqb_neq in Hnz. rewrite Hnz, Hthis in Hbound. discriminate. }
  unfold Sampler_setTexture, Sampler_bind, load_Sampler, load_Texture, load,
    store, call_, mbind, M_bind, mret, M_ret.
  rewrite Hthis. cbn. rewrite Hthis. cbn. rewrite lookup_insert_eq. cbn.
  unfold bound_handle in Hbound. cbn in Hbound.
  destruct (texture =? nullptr) eqn:Hnull; cbn.
  - injection Hbound as <-. rewrite MGL_OPENGL_CHECK_eq.
    eexists. split; [reflexivity|]. split_and!.
    + erewrite new_events_app.
      2:{ unfold after_check. cbn [trace]. rewrite <- !app_assoc.
          reflexivity. }
      cbn [app]. change (?a :: ?b :: ?l) with ([a; b] ++ l).
      now rewrite requests_app, requests_check.
    + cbn. now rewrite lookup_insert_eq.
    + reflexivity.
  - apply Z.eqb_neq in Hnull. specialize (Hne Hnull).
    rewrite lookup_insert_ne by done.
    destruct (heap w !! texture) as [[| |t| | | |]|]; try discriminate.
    injection Hbound as <-. cbn. rewrite MGL_OPENGL_CHECK_eq.
    eexists. split; [reflexivity|]. split_and!.
    + erewrite new_events_app.
      2:{ unfold after_check. cbn [trace]. rewrite <- !app_assoc.
          reflexivity. }
      cbn [app]. change (?a :: ?b :: ?l) with ([a; b] ++ l).
      now rewrite requests_app, requests_check.
    + cbn. now rewrite lookup_insert_eq.
    + contradiction.
Qed.

Lemma Sampler_setTexture_then_bind_witness :
  exists w',
    (Sampler_setTexture 0x40 0x50;; Sampler_bind 0x40) stale_sampler_world
      = Some (tt, w')
    /\ requests (new_events stale_sampler_world w') =
         [glActiveTexture (to_u32 (GL_TEXTURE0 + 99));
          glBindTexture GL_TEXTURE_2D 7]
    /\ heap w' !! 0x40 = Some (OSampler (mkSampler 99 0x50))
    /\ (0x50 = nullptr -> 7 = 0).
Proof.
  apply (Sampler_setTexture_then_bind 0x40 (mkSampler 99 0x50) 0x50 7
           stale_sampler_world).
  - reflexivity.
  - reflexivity.
Defined.

(** ** Program::make on any device *)

Lemma exchanges_app (tr1 tr2 : list Event) :
  exchanges (tr1 ++ tr2) = exchanges tr1 ++ exchanges tr2.
Proof. apply List.filter_app. Qed.

Lemma exchanges_check (e : GLenum) : exchanges (check_events e) = [].
Proof. unfold check_events. now destruct (is_reported e). Qed.

Lemma omap_exchanges {A} (f : Event -> option A) (tr : list Event) :
  (forall e, is_check_event e = true -> f e = None) ->
  omap f (exchanges tr) = omap f tr.
Proof.
  intros Hf. unfold exchanges.
  induction tr as [|e tr IH]; [reflexivity|].
  cbn. destruct (is_check_event e) eqn:He; cbn.
  - now rewrite (Hf e He).
  - now rewrite IH.
Qed.

Lemma trace_after_check (w : World) :
  trace (after_check w) = trace w ++ check_events (device w (trace w) glGetError).
Proof. reflexivity. Qed.

#[local] Arguments check_events : simpl never.
#[local] Arguments after_check : simpl never.
#[local] Arguments exchanges : simpl never.

Lemma trace_suffix_step (x t l l' : list Event) :
  x = t ++ l -> x ++ l' = t ++ (l ++ l').
Proof. intros ->. now rewrite app_assoc. Qed.

(** [trace w' = trace w ++ ?evs], for a [trace w'] built by appending. *)
Ltac trace_suffix :=
  repeat (rewrite ?trace_after_check; cbn [trace]);
  repeat first [reflexivity | apply trace_suffix_step].

(** [exchanges evs = ...], for [evs] found by [trace_suffix]. *)
Ltac read_exchanges :=
  rewrite ?exchanges_app, ?exchanges_check;
  unfold exchanges, compile_exchange, link_exchange; cbn;
  rewrite ?app_nil_r; reflexivity.

Lemma compile_cases (source : StringView) (shaderType : GLenum)
    (result r' : View.t) (s' : handle_t) (w w' : World) :
  compile source shaderType result w = Some ((s', r'), w') ->
  heap w' = heap w /\ allocator w' = allocator w /\ device w' = device w
  /\ exists evs s flag errLen,
       trace w' = trace w ++ evs
       /\ ((flag <> GL_FALSE /\ s' = s /\ r' = result
            /\ exchanges evs = compile_exchange shaderType s source flag)
           \/ (s' = 0 /\ r' = diagnostic_view result errLen
               /\ exchanges evs =
                    compile_exchange shaderType s source GL_FALSE
                    ++ log_exchange (glGetShaderInfoLog s) result errLen
                    ++ [mkEvent (glDeleteShader s) 0])).
Proof.
  intros H.
  unfold compile, call, call_, mbind, M_bind, mret, M_ret in H. cbn in H.
  rewrite MGL_OPENGL_CHECK_eq in H.
  match type of H with
  | context [if ?flag =? GL_FALSE then _ else _] =>
      destruct (flag =? GL_FALSE) eqn:Hflag
  end.
  - unfold diagnostic_view, log_exchange.
    apply Z.eqb_eq in Hflag. rewrite !Hflag in H.
    destruct (View.empty result) eqn:Hempty; cbn in H;
      rewrite MGL_OPENGL_CHECK_eq in H; injection H as <- <- <-;
      (split_and!; [reflexivity..|]);
      eexists _, _, _, _;
      (split; [trace_suffix|]);
      right; (split_and!; [reflexivity..|]);
      read_exchanges.
  - cbn in H. rewrite MGL_OPENGL_CHECK_eq in H. injection H as <- <- <-.
    split_and!; [reflexivity..|].
    eexists _, _, _, 0.
    split; [trace_suffix|].
    left. apply Z.eqb_neq in Hflag. split_and!; [exact Hflag|reflexivity..|].
    read_exchanges.
  Unshelve. all: exact 0.
Qed.



(** Every way [Program::make] can go, with what it exchanged with the
    device and the allocator on the way: the vertex stage fails; the device
    hands out no vertex shader name; the fragment stage fails; the device
    hands out no fragment shader name; linking fails; or a Program is
    returned. *)
Lemma Program_make_cases (vertexShaderSource fragShaderSource : StringView)
    (result r' : View.t) (obj : ptr) (w w' : World) :
  Program_make vertexShaderSource fragShaderSource result w
    = Some ((obj, r'), w') ->
  allocator w' = allocator w
  /\ exists evs vs fs p f1 f2 f3 errLen,
       trace w' = trace w ++ evs
       /\ ((obj = nullptr /\ heap w' = heap w
            /\ r' = diagnostic_view result errLen
            /\ exchanges evs =
                 compile_exchange GL_VERTEX_SHADER vs vertexShaderSource
                   GL_FALSE
                 ++ log_exchange (glGetShaderInfoLog vs) result errLen
                 ++ [mkEvent (glDeleteShader vs) 0])
           \/ (obj = nullptr /\ heap w' = heap w /\ r' = result /\ vs = 0
               /\ exchanges evs =
                    compile_exchange GL_VERTEX_SHADER vs vertexShaderSource f1)
           \/ (obj = nullptr /\ heap w' = heap w
               /\ r' = diagnostic_view result errLen /\ vs <> 0
               /\ exchanges evs =
                    compile_exchange GL_VERTEX_SHADER vs vertexShaderSource f1
                    ++ compile_exchange GL_FRAGMENT_SHADER fs fragShaderSource
                         GL_FALSE
                    ++ log_exchange (glGetShaderInfoLog fs) result errLen
                    ++ [mkEvent (glDeleteShader fs) 0])
           \/ (obj = nullptr /\ heap w' = heap w /\ r' = result
               /\ vs <> 0 /\ fs = 0
               /\ exchanges evs =
                    compile_exchange GL_VERTEX_SHADER vs vertexShaderSource f1
                    ++ compile_exchange GL_FRAGMENT_SHADER fs fragShaderSource
                         f2)
           \/ (obj = nullptr /\ heap w' = heap w
               /\ r' = diagnostic_view result errLen /\ vs <> 0 /\ fs <> 0
               /\ exchanges evs =
                    compile_exchange GL_VERTEX_SHADER vs vertexShaderSource f1
                    ++ compile_exchange GL_FRAGMENT_SHADER fs fragShaderSource
                         f2
                    ++ link_exchange p vs fs GL_FALSE
                    ++ log_exchange (glGetProgramInfoLog p) result errLen
                    ++ [mkEvent (glDeleteProgram p) 0])
           \/ (obj <> nullptr /\ allocator w <> nullptr
               /\ heap w !! obj = None
               /\ heap w' = <[obj := OProgram (mkProgram p)]> (heap w)
               /\ r' = result /\ vs <> 0 /\ fs <> 0
               /\ exchanges evs =
                    compile_exchange GL_VERTEX_SHADER vs vertexShaderSource f1
                    ++ compile_exchange GL_FRAGMENT_SHADER fs fragShaderSource
                         f2
                    ++ link_exchange p vs fs f3
                    ++ [mkEvent (allocate (allocator w) sizeof_Program) obj])).
Proof.
  intros H. unfold Program_make in H.
  apply bind_inv in H as ([vs r1] & w1 & Hc1 & H).
  apply compile_cases in Hc1
    as (Hh1 & Ha1 & Hd1 & e1 & s1 & f1 & len1 & Ht1 & Hcase1).
  destruct (vs =? 0) eqn:Hvs.
  { injection H as <- <- <-. split; [exact Ha1|].
    exists e1, s1, 0, 0, f1, 0, 0, len1. split; [exact Ht1|].
    destruct Hcase1 as [(Hf & -> & -> & Hx)|(_ & -> & Hx)].
    - right; left. apply Z.eqb_eq in Hvs. now split_and!.
    - left. now split_and!. }
  apply Z.eqb_neq in Hvs.
  destruct Hcase1 as [(Hf1 & <- & -> & Hx1)|(-> & _)]; [|contradiction].
  apply bind_inv in H as ([fs r2] & w2 & Hc2 & H).
  apply compile_cases in Hc2
    as (Hh2 & Ha2 & Hd2 & e2 & s2 & f2 & len2 & Ht2 & Hcase2).
  assert (Ht12 : trace w2 = trace w ++ (e1 ++ e2))
    by (rewrite Ht2, Ht1; now rewrite app_assoc).
  destruct (fs =? 0) eqn:Hfs.
  { injection H as <- <- <-. split; [congruence|].
    exists (e1 ++ e2), vs, s2, 0, f1, f2, 0, len2. split; [exact Ht12|].
    rewrite exchanges_app, Hx1.
    destruct Hcase2 as [(Hf & -> & -> & Hx)|(_ & -> & Hx)].
    - do 3 right; left. apply Z.eqb_eq in Hfs. rewrite Hx.
      split_and!; try done. congruence.
    - do 2 right; left. rewrite Hx. split_and!; try done. congruence. }
  apply Z.eqb_neq in Hfs.
  destruct Hcase2 as [(Hf2 & <- & -> & Hx2)|(-> & _)]; [|contradiction].
  unfold call, call_, mbind, M_bind, mret, M_ret in H. cbn in H.
  rewrite MGL_OPENGL_CHECK_eq in H.
  match type of H with
  | context [if ?flag =? GL_FALSE then _ else _] =>
      destruct (flag =? GL_FALSE) eqn:Hflag
  end.
  - apply Z.eqb_eq in Hflag. rewrite !Hflag in H.
    unfold diagnostic_view, log_exchange.
    destruct (View.empty result) eqn:Hempty; cbn in H;
      injection H as <- <- <-;
      (split; [unfold after_check; cbn; congruence|]);
      eexists _, vs, fs, _, f1, f2, 0, _;
      (split; [repeat (rewrite ?trace_after_check; cbn [trace]);
               repeat first [exact Ht12 | apply trace_suffix_step]|]);
      do 4 right; left;
      (split_and!; [reflexivity | unfold after_check; cbn; congruence
                    | reflexivity | exact Hvs | exact Hfs |]);
      rewrite ?exchanges_app, ?exchanges_check, Hx1, Hx2;
      unfold exchanges at 1 2 3; unfold link_exchange; cbn;
      rewrite ?app_nil_r, <- ?app_assoc; reflexivity.
  - apply Z.eqb_neq in Hflag. cbn in H. rewrite MGL_OPENGL_CHECK_eq in H.
    match type of H with
    | context [newObject ?sz ?o ?W] =>
        destruct (newObject sz o W) as [[a wx]|] eqn:Hnew; [|discriminate]
    end.
    injection H as <- <- <-.
    apply newObject_inv in Hnew as (Hinst & _ & Hobj & Hfree & ->).
    unfold after_check in Hfree, Hinst |- *.
    cbn [allocator heap device trace] in Hfree, Hinst |- *.
    split; [congruence|].
    eexists _, vs, fs, _, f1, f2, _, 0.
    split.
    { repeat (rewrite ?trace_after_check; cbn [trace]).
      repeat first [exact Ht12 | apply trace_suffix_step]. }
    do 5 right.
    split_and!.
    + exact Hobj.
    + congruence.
    + rewrite <- Hh1, <- Hh2. exact Hfree.
    + now rewrite Hh2, Hh1.
    + reflexivity.
    + exact Hvs.
    + exact Hfs.
    + rewrite ?exchanges_app, ?exchanges_check, Hx1, Hx2.
      unfold exchanges at 1 2 3 4. unfold link_exchange. cbn.
      rewrite ?app_nil_r, <- ?app_assoc. rewrite Ha2, Ha1. reflexivity.
  Unshelve. all: exact 0.
Qed.

Ltac ignores_checks :=
  let e := fresh "e" in
  intros e; destruct e as [[] ?]; cbn; intros ?; (discriminate || reflexivity).

Lemma allocations_exchanges (tr : list Event) :
  allocations tr = allocations (exchanges tr).
Proof. unfold allocations. now rewrite omap_exchanges by ignores_checks. Qed.

Lemma programs_created_exchanges (tr : list Event) :
  programs_created tr = programs_created (exchanges tr).
Proof. unfold programs_created. now rewrite omap_exchanges by ignores_checks. Qed.

Lemma programs_deleted_exchanges (tr : list Event) :
  programs_deleted tr = programs_deleted (exchanges tr).
Proof. unfold programs_deleted. now rewrite omap_exchanges by ignores_checks. Qed.

Lemma shaders_created_exchanges (tr : list Event) :
  shaders_created tr = shaders_created (exchanges tr).
Proof. unfold shaders_created. now rewrite omap_exchanges by ignores_checks. Qed.

Lemma shaders_deleted_exchanges (tr : list Event) :
  shaders_deleted tr = shaders_deleted (exchanges tr).
Proof. unfold shaders_deleted. now rewrite omap_exchanges by ignores_checks. Qed.

Lemma info_logs_exchanges (tr : list Event) :
  info_logs tr = info_logs (exchanges tr).
Proof. unfold info_logs. now rewrite omap_exchanges by ignores_checks. Qed.

(** X18.  When [Program::make] returns null, whatever the device did, it
    has taken nothing from the allocator, the object store is as it was,
    and every program object it created it has deleted. *)
Theorem Program_make_null_is_clean
    (vertexShaderSource fragShaderSource : StringView)
    (result r' : View.t) (w w' : World) :
  Program_make vertexShaderSource fragShaderSource result w
    = Some ((nullptr, r'), w') ->
  heap w' = heap w
  /\ allocator w' = allocator w
  /\ allocations (new_events w w') = []
  /\ programs_leaked (new_events w w') = []
  /\ programs_created (new_events w w') = programs_deleted (new_events w w').
Proof.
  intros H.
  apply Program_make_cases in H
    as (Ha & evs & vs & fs & p & f1 & f2 & f3 & errLen & Ht & Hcase).
  rewrite (new_events_app _ _ _ Ht).
  unfold programs_leaked.
  rewrite allocations_exchanges, programs_created_exchanges,
    programs_deleted_exchanges.
  destruct Hcase as [(_ & Hh & _ & Hx)|[(_ & Hh & _ & _ & Hx)
    |[(_ & Hh & _ & _ & Hx)|[(_ & Hh & _ & _ & _ & Hx)
    |[(_ & Hh & _ & _ & _ & Hx)|(Hobj & _)]]]]]; [..|contradiction];
    rewrite Hx; unfold log_exchange; destruct (View.empty result);
    cbn; unfold not_among; cbn; rewrite ?Z.eqb_refl; now split_and!.
Qed.

Lemma Program_make_null_is_clean_witness :
  heap (after (Program_make vertex_ok fragment_bad error_buffer installed_world)
          installed_world) = heap installed_world
  /\ allocator (after (Program_make vertex_ok fragment_bad error_buffer
                         installed_world) installed_world)
     = allocator installed_world
  /\ allocations (new_events installed_world
                    (after (Program_make vertex_ok fragment_bad error_buffer
                              installed_world) installed_world)) = []
  /\ programs_leaked (new_events installed_world
                        (after (Program_make vertex_ok fragment_bad
                                  error_buffer installed_world)
                           installed_world)) = []
  /\ programs_created (new_events installed_world
                         (after (Program_make vertex_ok fragment_bad
                                   error_buffer installed_world)
                            installed_world))
     = programs_deleted (new_events installed_world
                           (after (Program_make vertex_ok fragment_bad
                                     error_buffer installed_world)
                              installed_world)).
Proof.
  apply (Program_make_null_is_clean vertex_ok fragment_bad error_buffer
           (View.mk 0x500 24) installed_world).
  vm_compute. reflexivity.
Defined.

(** X19.  When [Program::make] returns a Program, whatever the device did:
    the Program is new, it holds the one program object that was created,
    which has not been deleted; both shaders that were created have been
    given to [glDeleteShader] after being attached; one
    [sizeof (Program)] piece of storage came from the installed allocator;
    no diagnostic was asked for and the caller's view is as it was. *)
Theorem Program_make_returns_program
    (vertexShaderSource fragShaderSource : StringView)
    (result r' : View.t) (obj : ptr) (w w' : World) :
  Program_make vertexShaderSource fragShaderSource result w
    = Some ((obj, r'), w') ->
  obj <> nullptr ->
  exists p,
    heap w !! obj = None
    /\ heap w' = <[obj := OProgram (mkProgram p)]> (heap w)
    /\ programs_created (new_events w w') = [p]
    /\ programs_deleted (new_events w w') = []
    /\ shaders_leaked (new_events w w') = []
    /\ allocations (new_events w w') = [(allocator w, sizeof_Program, obj)]
    /\ info_logs (new_events w w') = []
    /\ r' = result.
Proof.
  intros H Hobj.
  apply Program_make_cases in H
    as (Ha & evs & vs & fs & p & f1 & f2 & f3 & errLen & Ht & Hcase).
  rewrite (new_events_app _ _ _ Ht).
  unfold shaders_leaked.
  rewrite allocations_exchanges, programs_created_exchanges,
    programs_deleted_exchanges, shaders_created_exchanges,
    shaders_deleted_exchanges, info_logs_exchanges.
  destruct Hcase as [(Hn & _)|[(Hn & _)|[(Hn & _)|[(Hn & _)|[(Hn & _)
    |(_ & _ & Hfree & Hh & Hr & _ & _ & Hx)]]]]]; try contradiction.
  exists p. rewrite Hx. cbn. unfold not_among. cbn.
  rewrite !Z.eqb_refl, orb_true_r. cbn. now split_and!.
Qed.

Lemma Program_make_returns_program_witness :
  exists p,
    heap installed_world !! 0x2600 = None
    /\ heap (after (Program_make vertex_ok fragment_ok error_buffer
                      installed_world) installed_world)
       = <[0x2600 := OProgram (mkProgram p)]> (heap installed_world)
    /\ programs_created
         (new_events installed_world
            (after (Program_make vertex_ok fragment_ok error_buffer
                      installed_world) installed_world)) = [p]
    /\ programs_deleted
         (new_events installed_world
            (after (Program_make vertex_ok fragment_ok error_buffer
                      installed_world) installed_world)) = []
    /\ shaders_leaked
         (new_events installed_world
            (after (Program_make vertex_ok fragment_ok error_buffer
                      installed_world) installed_world)) = []
    /\ allocations
         (new_events installed_world
            (after (Program_make vertex_ok fragment_ok error_buffer
                      installed_world) installed_world))
       = [(allocator installed_world, sizeof_Program, 0x2600)]
    /\ info_logs
         (new_events installed_world
            (after (Program_make vertex_ok fragment_ok error_buffer
                      installed_world) installed_world)) = []
    /\ error_buffer = error_buffer.
Proof.
  apply (Program_make_returns_program vertex_ok fragment_ok error_buffer
           error_buffer 0x2600 installed_world).
  - vm_compute. reflexivity.
  - vm_compute. discriminate.
Defined.

(** X20.  [Program::make] asks the device for a diagnostic at most once,
    and then for at most [result.size () - 1] characters written at the
    caller's pointer; the view it hands back starts at the caller's
    pointer.  With an empty view it asks for none and hands the view back
    as it was. *)
Theorem Program_make_diagnostics
    (vertexShaderSource fragShaderSource : StringView)
    (result r' : View.t) (obj : ptr) (w w' : World) :
  Program_make vertexShaderSource fragShaderSource result w
    = Some ((obj, r'), w') ->
  View.data r' = View.data result
  /\ (info_logs (new_events w w') = []
      \/ info_logs (new_events w w')
         = [(to_s32 (View.size result - 1), View.data result)])
  /\ (View.empty result = true ->
      info_logs (new_events w w') = [] /\ r' = result).
Proof.
  intros H.
  apply Program_make_cases in H
    as (Ha & evs & vs & fs & p & f1 & f2 & f3 & errLen & Ht & Hcase).
  rewrite (new_events_app _ _ _ Ht), info_logs_exchanges.
  destruct Hcase as [(_ & _ & -> & Hx)|[(_ & _ & -> & _ & Hx)
    |[(_ & _ & -> & _ & Hx)|[(_ & _ & -> & _ & _ & Hx)
    |[(_ & _ & -> & _ & _ & Hx)|(_ & _ & _ & _ & -> & _ & _ & Hx)]]]]];
    rewrite Hx; unfold log_exchange, diagnostic_view;
    destruct (View.empty result) eqn:Hempty; cbn;
    split_and!; try reflexivity; try (left; reflexivity);
    try (right; reflexivity); try discriminate; intros _; now split.
Qed.

Lemma Program_make_diagnostics_witness :
  View.data (View.mk 0x500 24) = View.data error_buffer
  /\ (info_logs (new_events installed_world
                   (after (Program_make vertex_ok fragment_bad error_buffer
                             installed_world) installed_world)) = []
      \/ info_logs (new_events installed_world
                      (after (Program_make vertex_ok fragment_bad error_buffer
                                installed_world) installed_world))
         = [(to_s32 (View.size error_buffer - 1), View.data error_buffer)])
  /\ (View.empty error_buffer = true ->
      info_logs (new_events installed_world
                   (after (Program_make vertex_ok fragment_bad error_buffer
                             installed_world) installed_world)) = []
      /\ View.mk 0x500 24 = error_buffer).
Proof.
  apply (Program_make_diagnostics vertex_ok fragment_bad error_buffer
           (View.mk 0x500 24) nullptr installed_world).
  vm_compute. reflexivity.
Defined.

Lemma Program_make_fragment_failure_witness :
  Program_make vertex_ok fragment_bad error_buffer installed_world
    = Some ((nullptr, View.mk 0x500 24),
            after (compile fragment_bad GL_FRAGMENT_SHADER error_buffer
                     (after (compile vertex_ok GL_VERTEX_SHADER error_buffer
                               installed_world) installed_world))
              installed_world)
  /\ exists evs fs0,
       trace (after (compile fragment_bad GL_FRAGMENT_SHADER error_buffer
                       (after (compile vertex_ok GL_VERTEX_SHADER error_buffer
                                 installed_world) installed_world))
                installed_world)
       = trace installed_world ++ evs
       /\ shaders_created evs = [1; fs0]
       /\ (shaders_deleted evs = [fs0] \/ shaders_deleted evs = []).
Proof.
  apply (Program_make_fragment_failure vertex_ok fragment_bad error_buffer
           error_buffer (View.mk 0x500 24) 1 installed_world
           (after (compile vertex_ok GL_VERTEX_SHADER error_buffer
                     installed_world) installed_world)).
  - vm_compute. reflexivity.
  - discriminate.
  - vm_compute. reflexivity.
Defined.

(** ** Uniform upload by name *)

(** X21.  [program->uniform (name) = value] asks the device for the
    location of [name] in the Program's program object and uploads the
    value to whatever location the device answered, the "not found"
    answer included, with the primitive of the value's type;
    [program[name] = value] does the same.  The Program is unchanged. *)
Theorem Program_uniform_then_assign (T : UniformType) (this : ptr)
    (prog : Program) (name : StringView) (value : ptr) (w : World) :
  heap w !! this = Some (OProgram prog) ->
  let location :=
    device w (trace w) (glGetUniformLocation (Program_handle prog) name) in
  exists w',
    (setter ← Program_uniform this name; UniformSetter_assign T setter value) w
      = Some (tt, w')
    /\ (setter ← Program_subscript this name;
        UniformSetter_assign T setter value) w = Some (tt, w')
    /\ new_events w w' =
         [mkEvent (glGetUniformLocation (Program_handle prog) name) location;
          mkEvent (primitive_call (spec_primitive T) location value) 0]
    /\ heap w' = heap w.
Proof.
  intros Hthis location.
  unfold Program_uniform, Program_subscript, UniformSetter_assign,
    load_Program, load, call, mbind, M_bind, mret, M_ret.
  rewrite Hthis. cbn. fold location.
  destruct T; cbn;
    unfold set_uniform_Sampler, set_uniform_f1, set_uniform_f2,
      set_uniform_f3, set_uniform_f4, set_uniform_i1, set_uniform_m3x3,
      set_uniform_m4x4, MGL_ASSERT, offsetof_Sampler_index, call_,
      mbind, M_bind, mret, M_ret;
    cbn; rewrite ?Z.add_0_r;
    (eexists; split_and!; [reflexivity | reflexivity | | reflexivity]);
    apply new_events_app; cbn; now rewrite <- app_assoc.
Qed.

Lemma Program_uniform_then_assign_witness :
  exists w',
    (setter ← Program_uniform 0x800 "matrix";
     UniformSetter_assign U_glm_mat4 setter 0x900) program_world
      = Some (tt, w')
    /\ (setter ← Program_subscript 0x800 "matrix";
        UniformSetter_assign U_glm_mat4 setter 0x900) program_world
       = Some (tt, w')
    /\ new_events program_world w' =
         [mkEvent (glGetUniformLocation 13 "matrix") 0;
          mkEvent (glUniformMatrix4fv 0 1 GL_FALSE 0x900) 0]
    /\ heap w' = heap program_world.
Proof.
  apply (Program_uniform_then_assign U_glm_mat4 0x800 (mkProgram 13)
           "matrix" 0x900 program_world).
  reflexivity.
Defined.

(** ** A Program from make to deleteObject *)

(** X22.  A Program that [make] returned: [use] selects the program
    object [make] created; [deleteObject] deletes that program object and
    gives the storage back through the allocator it came from, and the
    object store is then as it was before [make]. *)
Theorem Program_make_use_deleteObject
    (vertexShaderSource fragShaderSource : StringView)
    (result r' : View.t) (obj : ptr) (w w1 : World) :
  Program_make vertexShaderSource fragShaderSource result w
    = Some ((obj, r'), w1) ->
  obj <> nullptr ->
  exists p w2 w3,
    programs_created (new_events w w1) = [p]
    /\ Program_use obj w1 = Some (tt, w2)
    /\ new_events w1 w2 = [mkEvent (glUseProgram p) 0]
    /\ deleteObject Program_dtor obj w2 = Some (tt, w3)
    /\ new_events w2 w3 = [mkEvent (glDeleteProgram p) 0;
                           mkEvent (free (allocator w) obj) 0]
    /\ heap w3 = heap w.
Proof.
  intros H Hobj.
  apply Program_make_cases in H
    as (Ha & evs & vs & fs & p & f1 & f2 & f3 & errLen & Ht & Hcase).
  destruct Hcase as [(Hn & _)|[(Hn & _)|[(Hn & _)|[(Hn & _)|[(Hn & _)
    |(_ & Hinst & Hfree & Hh & _ & _ & _ & Hx)]]]]]; try contradiction.
  assert (Hlive : heap w1 !! obj = Some (OProgram (mkProgram p)))
    by (rewrite Hh; now rewrite lookup_insert_eq).
  apply Z.eqb_neq in Hobj. rewrite <- Ha in Hinst. apply Z.eqb_neq in Hinst.
  exists p. eexists. eexists. split_and!.
  - rewrite (new_events_app _ _ _ Ht), programs_created_exchanges, Hx.
    reflexivity.
  - unfold Program_use, load_Program, load, call_, mbind, M_bind.
    rewrite Hlive. reflexivity.
  - now apply new_events_app.
  - unfold deleteObject, Program_dtor, allocator_free, get_allocator, release,
      load_Program, load, store, call_, mbind, M_bind.
    rewrite Hobj. cbn. rewrite Hlive. cbn. rewrite Hlive. cbn.
    rewrite Hinst. cbn. reflexivity.
  - apply new_events_app. cbn. rewrite <- !app_assoc. cbn.
    now rewrite Ha.
  - cbn. rewrite Hh, insert_insert_eq. now apply delete_insert_id.
Qed.

Lemma Program_make_use_deleteObject_witness :
  exists p w2 w3,
    programs_created
      (new_events installed_world
         (after (Program_make vertex_ok fragment_ok error_buffer
                   installed_world) installed_world)) = [p]
    /\ Program_use 0x2600
         (after (Program_make vertex_ok fragment_ok error_buffer
                   installed_world) installed_world) = Some (tt, w2)
    /\ new_events
         (after (Program_make vertex_ok fragment_ok error_buffer
                   installed_world) installed_world) w2
       = [mkEvent (glUseProgram p) 0]
    /\ deleteObject Program_dtor 0x2600 w2 = Some (tt, w3)
    /\ new_events w2 w3 = [mkEvent (glDeleteProgram p) 0;
                           mkEvent (free (allocator installed_world) 0x2600) 0]
    /\ heap w3 = heap installed_world.
Proof.
  apply (Program_make_use_deleteObject vertex_ok fragment_ok error_buffer
           error_buffer 0x2600 installed_world).
  - vm_compute. reflexivity.
  - vm_compute. discriminate.
Defined.

(** ** Drawing *)

(** X23.  [draw] on a live VertexArray asks the device for one draw of the
    caller's range, with the constant [enum_cast] gives the mode.  It does
    not bind the VertexArray, or anything else: what is drawn is whatever
    vertex array is bound at that moment. *)
Theorem VertexArray_draw_requests (this : ptr) (v : VertexArray)
    (mode : DrawMode.t) (offset count : Z) (w : World) :
  heap w !! this = Some (OVertexArray v) ->
  exists w',
    VertexArray_draw this mode offset count w = Some (tt, w')
    /\ requests (new_events w w')
       = [glDrawArrays (enum_cast mode) offset count]
    /\ heap w' = heap w.
Proof.
  intros Hthis.
  unfold VertexArray_draw, load_VertexArray, load, call_, mbind, M_bind.
  rewrite Hthis. cbn.
  destruct mode; cbn; rewrite MGL_OPENGL_CHECK_eq;
    (eexists; split_and!; [reflexivity | | reflexivity]);
    (erewrite new_events_app
       by (rewrite trace_after_check; cbn [trace];
           rewrite <- app_assoc; reflexivity));
    now rewrite requests_app, requests_check.
Qed.

Lemma VertexArray_draw_requests_witness :
  exists w',
    VertexArray_draw 0x400 DrawMode.Triangles 0 3 two_buffer_world
      = Some (tt, w')
    /\ requests (new_events two_buffer_world w')
       = [glDrawArrays GL_TRIANGLES 0 3]
    /\ heap w' = heap two_buffer_world.
Proof.
  apply (VertexArray_draw_requests 0x400 vertex_array_ab DrawMode.Triangles
           0 3 two_buffer_world).
  reflexivity.
Defined.
